(** * Group libraries endpoints of seahub: a shallow embedding

    Source: [seahub/api2/endpoints/group_libraries.py].

    The three handlers ([GroupLibraries.get], [GroupLibraries.post] and
    [GroupLibrary.delete]) are thin layers over collaborators that live
    outside the file: the seafile and ccnet RPC services, the Django tables
    of seahub, the configuration and the user directory.  The collaborators
    are taken as a record of functions over an abstract service state; the
    handlers are written in a small state-and-fault monad over a [World]
    that also logs every side-effecting call. *)

From Stdlib Require Import ZArith Lia Permutation Ascii String.
From stdpp Require Import base option list strings pretty gmap sorting.

Local Open Scope string_scope.
Local Open Scope list_scope.
Local Open Scope Z_scope.

(** ** Python values *)

(** Truth value of [None], [''] and a non-empty string, as used by
    [not repo_name], [if password] and [x or default]. *)
Definition truthy (v : option string) : bool :=
  match v with
  | Some s => negb (String.eqb s "")
  | None => false
  end.

(** [v or d] on an optional string. *)
Definition py_or (v : option string) (d : string) : string :=
  match v with
  | Some s => if String.eqb s "" then d else s
  | None => d
  end.

(** [cmp(a, b)] of Python 2 on integers. *)
Definition cmp (a b : Z) : Z :=
  match a ?= b with
  | Lt => -1
  | Eq => 0
  | Gt => 1
  end.

(** [list.sort(cmpfunc)]: Python's sort is stable, and for a comparison
    that is a total preorder the stable sorted arrangement is unique, so a
    stable insertion sort computes the same list.  [py_insert] puts [x],
    which preceded every element of [l] in the input, in front of the first
    element it does not compare greater than. *)
Fixpoint py_insert {A} (cmpfunc : A -> A -> Z) (x : A) (l : list A) : list A :=
  match l with
  | [] => [x]
  | y :: l' =>
      if cmpfunc x y <=? 0 then x :: y :: l' else y :: py_insert cmpfunc x l'
  end.

Fixpoint py_sort {A} (cmpfunc : A -> A -> Z) (l : list A) : list A :=
  match l with
  | [] => []
  | x :: l' => py_insert cmpfunc x (py_sort cmpfunc l')
  end.

(** ** Objects returned by the repository service *)

(** Items of [seafile_api.get_repos_by_group]: the attributes read by
    [get_group_repo_info]. *)
Module GroupRepo.
Record t := mk {
  repo_id : string;
  name : string;
  last_modified : Z;
  permission : string;
  size : Z;
  encrypted : bool;
  user : string;
  last_modifier : string
}.
End GroupRepo.

(** Result of [seafile_api.get_repo]: the attributes read by [post] and
    [delete]. *)
Module Repo.
Record t := mk {
  id : string;
  name : string;
  last_modified : Z;
  size : Z;
  encrypted : bool;
  last_modifier : string;
  origin_repo_id : option string;
  origin_path : option string
}.
End Repo.

(** The dictionary [group_repo_info], whose keys are fixed. *)
Record group_repo_info := mk_info {
  repo_id : string;
  repo_name : string;
  mtime : string;
  permission : string;
  size : Z;
  encrypted : bool;
  owner_email : string;
  owner_name : string;
  owner_contact_name : string;
  modifier_email : string;
  modifier_name : string;
  modifier_contact_email : string
}.

(** ** Responses *)

Definition HTTP_200_OK : Z := 200.
Definition HTTP_400_BAD_REQUEST : Z := 400.
Definition HTTP_403_FORBIDDEN : Z := 403.
Definition HTTP_404_NOT_FOUND : Z := 404.

Inductive ResponseData :=
| InfoList (result : list group_repo_info)
| Info (info : group_repo_info)
| SuccessTrue
| ErrorMsg (error_msg : string).

Record Response := mk_response {
  data : ResponseData;
  status_code : Z
}.

(** [Response(data)] with the default status. *)
Definition Response_ok (d : ResponseData) : Response :=
  mk_response d HTTP_200_OK.

(** Modelled from the spec: [api_error] of [seahub.api2.utils], which is not
    in the file; errors are surfaced as the HTTP status with a short
    message. *)
Definition api_error (code : Z) (error_msg : string) : Response :=
  mk_response (ErrorMsg error_msg) code.

(** The error taxonomy of the specification, on responses. *)
Definition PermissionDenied : Response :=
  api_error HTTP_403_FORBIDDEN "Permission denied.".
Definition FeatureDisabled : Response :=
  api_error HTTP_403_FORBIDDEN "NOT allow to create encrypted library.".
Definition is_NotFound (r : Response) : Prop :=
  status_code r = HTTP_404_NOT_FOUND.
Definition is_error (r : Response) : Prop :=
  400 <= status_code r.

(** ** Requests *)

(** [request.user.username], [request.user.permissions.can_add_repo()],
    [request.data], and the organisation context: [org_context] is
    [Some org_id] exactly when [is_org_context(request)] holds, and then
    [request.user.org.org_id = org_id]. *)
Record Request := mk_request {
  username : string;
  can_add_repo : bool;
  org_context : option Z;
  request_data : gmap string string
}.

(** ** The extra share permission table *)

(** Modelled from the spec: the rows of [ExtraGroupsSharePermission] of
    [seahub.share.models], a refined permission per (repo, group) pair. *)
Module ExtraGroupsSharePermission.
Record t := mk {
  repo_id : string;
  group_id : Z;
  permission : string
}.

Definition references (repo_id0 : string) (group_id0 : Z) (row : t) : bool :=
  String.eqb (repo_id row) repo_id0 && (group_id row =? group_id0).

(** Modelled from the spec: [objects.delete_share_permission], which
    deletes the record for (repo id, group id). *)
Definition delete_share_permission (repo_id0 : string) (group_id0 : Z)
    (rows : list t) : list t :=
  filter (fun row => references repo_id0 group_id0 row = false) rows.
End ExtraGroupsSharePermission.

(** ** Side-effecting calls *)

(** One constructor per call that changes something outside the handler,
    with the arguments the handler passes. *)
Inductive Effect :=
| create_repo_call (name desc username : string) (passwd : option string)
| create_org_repo_call (name desc username : string) (passwd : option string)
    (org_id : Z)
| set_group_repo_call (repo_id : string) (group_id : Z) (username : string)
    (permission : string)
| add_org_group_repo_call (repo_id : string) (org_id group_id : Z)
    (username : string) (permission : string)
| repo_created_send (org_id : Z) (creator repo_id repo_name : string)
    (library_template : string)
| unset_group_repo_call (repo_id : string) (group_id : Z) (username : string)
| del_org_group_repo_call (repo_id : string) (org_id group_id : Z)
| delete_share_permission_call (repo_id : string) (group_id : Z)
| send_perm_audit_msg (etype from_user : string) (to : Z)
    (repo_id path perm : string).

Definition is_audit_msg (e : Effect) : bool :=
  match e with
  | send_perm_audit_msg _ _ _ _ _ _ => true
  | _ => false
  end.

(** ** Collaborators *)

(** The contracts the handlers consume, over a service state [St].  Queries
    read the state and give the value the call returns; the two listing
    calls, whose result the list operation hands out, give [None] when the
    call raises.  Mutating calls return the new state and either a result
    or [None] when the call raises. *)
Record Service (St : Type) := mk_service {
  (* ccnet and group utilities *)
  get_group : St -> Z -> bool;
  is_group_member : St -> Z -> string -> bool;
  is_group_admin : St -> Z -> string -> bool;
  is_org_group : St -> Z -> bool;
  get_org_id_by_group : St -> Z -> Z;
  (* share policy; it reads the extra permission tables as well *)
  is_repo_admin :
    St -> list ExtraGroupsSharePermission.t -> string -> string -> bool;
  (* seafile queries *)
  get_repos_by_group : St -> Z -> option (list GroupRepo.t);
  get_org_group_repos : St -> Z -> Z -> option (list GroupRepo.t);
  get_repo : St -> string -> option Repo.t;
  get_repo_owner : St -> string -> option string;
  (* seafile mutations *)
  create_repo :
    string -> string -> string -> option string -> St -> option string * St;
  create_org_repo :
    string -> string -> string -> option string -> Z -> St ->
    option string * St;
  set_group_repo :
    string -> Z -> string -> string -> St -> option unit * St;
  add_org_group_repo :
    string -> Z -> Z -> string -> string -> St -> option unit * St;
  unset_group_repo : string -> Z -> string -> St -> option unit * St;
  del_org_group_repo : string -> Z -> Z -> St -> option unit * St;
  (* configuration, name check, formatting and user directory *)
  ENABLE_ENCRYPTED_LIBRARY : St -> bool;
  is_valid_dirent_name : string -> bool;
  timestamp_to_isoformat_timestr : Z -> string;
  email2nickname : string -> string;
  email2contact_email : string -> string
}.

Arguments get_group {St}.
Arguments is_group_member {St}.
Arguments is_group_admin {St}.
Arguments is_org_group {St}.
Arguments get_org_id_by_group {St}.
Arguments is_repo_admin {St}.
Arguments get_repos_by_group {St}.
Arguments get_org_group_repos {St}.
Arguments get_repo {St}.
Arguments get_repo_owner {St}.
Arguments create_repo {St}.
Arguments create_org_repo {St}.
Arguments set_group_repo {St}.
Arguments add_org_group_repo {St}.
Arguments unset_group_repo {St}.
Arguments del_org_group_repo {St}.
Arguments ENABLE_ENCRYPTED_LIBRARY {St}.
Arguments is_valid_dirent_name {St}.
Arguments timestamp_to_isoformat_timestr {St}.
Arguments email2nickname {St}.
Arguments email2contact_email {St}.

(** ** The world and the handler monad *)

Record World (St : Type) := mk_world {
  service_state : St;
  share_permissions : list ExtraGroupsSharePermission.t;
  emitted : list Effect
}.

Arguments mk_world {St}.
Arguments service_state {St}.
Arguments share_permissions {St}.
Arguments emitted {St}.

(** A computation reads and updates the world and returns a value, or
    [None] for an exception nobody catches. *)
Definition M (St A : Type) : Type := World St -> option A * World St.

Definition ret {St A} (a : A) : M St A := fun w => (Some a, w).

Definition bind {St A B} (m : M St A) (k : A -> M St B) : M St B :=
  fun w =>
    match m w with
    | (Some a, w') => k a w'
    | (None, w') => (None, w')
    end.

Definition raise {St A} : M St A := fun w => (None, w).

Definition read {St A} (q : World St -> A) : M St A := fun w => (Some (q w), w).

(** A read that raises when the call behind it does. *)
Definition query {St A} (q : World St -> option A) : M St A :=
  fun w => (q w, w).

(** A remote call: it is logged, and the service state moves on. *)
Definition rpc {St A} (e : Effect) (f : St -> option A * St) : M St A :=
  fun w =>
    let '(r, s') := f (service_state w) in
    (r, mk_world s' (share_permissions w) (emitted w ++ [e])).

(** An emission: only logged. *)
Definition emit {St} (e : Effect) : M St unit :=
  fun w => (Some tt, mk_world (service_state w) (share_permissions w)
                       (emitted w ++ [e])).

Definition delete_share_permission {St} (repo_id0 : string) (group_id0 : Z)
    : M St unit :=
  fun w =>
    (Some tt,
     mk_world (service_state w)
       (ExtraGroupsSharePermission.delete_share_permission repo_id0 group_id0
          (share_permissions w))
       (emitted w ++ [delete_share_permission_call repo_id0 group_id0])).

Notation "'let*' x ':=' m 'in' k" := (bind m (fun x => k))
  (at level 10, x name, m at level 100, k at level 200).

(** ** The handlers *)

Section Handlers.
Context {St : Type} (svc : Service St).

Definition get_group_repo_info (group_repo : GroupRepo.t) : group_repo_info :=
  let repo_owner := GroupRepo.user group_repo in
  let modifier := GroupRepo.last_modifier group_repo in
  {| repo_id := GroupRepo.repo_id group_repo;
     repo_name := GroupRepo.name group_repo;
     mtime :=
       timestamp_to_isoformat_timestr svc (GroupRepo.last_modified group_repo);
     permission := GroupRepo.permission group_repo;
     size := GroupRepo.size group_repo;
     encrypted := GroupRepo.encrypted group_repo;
     owner_email := repo_owner;
     owner_name := email2nickname svc repo_owner;
     owner_contact_name := email2contact_email svc repo_owner;
     modifier_email := modifier;
     modifier_name := email2nickname svc modifier;
     modifier_contact_email := email2contact_email svc modifier |}.

(** Modelled from the spec: the decorator [api_check_group] of
    [seahub.api2.endpoints.utils], which is not in the file; the target
    group must exist before any permission logic runs, and a missing group
    short-circuits with a not-found response.  The group id of the URL is
    a string of digits, so [int(group_id)] is taken as done. *)
Definition api_check_group (func : Z -> M St Response) (group_id : Z)
    : M St Response :=
  let* group := read (fun w => get_group svc (service_state w) group_id) in
  if negb group then
    ret (api_error HTTP_404_NOT_FOUND "Group not found.")
  else func group_id.

(** [GroupLibraries.get], the decorated function. *)
Definition GroupLibraries_get_view (request : Request) (group_id : Z)
    : M St Response :=
  (* only group member can get group libraries *)
  let* member :=
    read (fun w =>
            is_group_member svc (service_state w) group_id (username request))
  in
  if negb member then
    ret (api_error HTTP_403_FORBIDDEN "Permission denied.")
  else
    let* group_repos :=
      match org_context request with
      | Some org_id =>
          query (fun w =>
                   get_org_group_repos svc (service_state w) org_id group_id)
      | None =>
          query (fun w => get_repos_by_group svc (service_state w) group_id)
      end
    in
    let group_repos :=
      py_sort
        (fun x y =>
           cmp (GroupRepo.last_modified y) (GroupRepo.last_modified x))
        group_repos
    in
    let result := map get_group_repo_info group_repos in
    ret (Response_ok (InfoList result)).

Definition GroupLibraries_get (request : Request) : Z -> M St Response :=
  api_check_group (GroupLibraries_get_view request).

(** [GroupLibraries.post], the decorated function. *)
Definition GroupLibraries_post_view (request : Request) (group_id : Z)
    : M St Response :=
  (* argument check *)
  let repo_name := request_data request !! "repo_name" in
  if negb (truthy repo_name)
     || negb (is_valid_dirent_name svc (default "" repo_name)) then
    ret (api_error HTTP_400_BAD_REQUEST "repo_name invalid.")
  else
    let repo_name := default "" repo_name in
    let password := request_data request !! "password" in
    let* enabled :=
      read (fun w => ENABLE_ENCRYPTED_LIBRARY svc (service_state w))
    in
    if truthy password && negb enabled then
      ret (api_error HTTP_403_FORBIDDEN
             "NOT allow to create encrypted library.")
    else
      let permission := default "rw" (request_data request !! "permission") in
      if negb (bool_decide (permission ∈ ["r"; "rw"])) then
        ret (api_error HTTP_400_BAD_REQUEST "permission invalid.")
      else
        (* permission check *)
        if negb (can_add_repo request) then
          ret (api_error HTTP_403_FORBIDDEN "Permission denied.")
        else
          let* member :=
            read (fun w =>
                    is_group_member svc (service_state w) group_id
                      (username request))
          in
          if negb member then
            ret (api_error HTTP_403_FORBIDDEN "Permission denied.")
          else
            (* create group repo *)
            let username := username request in
            let org_id := default (-1) (org_context request) in
            let* repo_id :=
              match org_context request with
              | Some org_id =>
                  let* repo_id :=
                    rpc (create_org_repo_call repo_name "" username password
                           org_id)
                      (create_org_repo svc repo_name "" username password
                         org_id)
                  in
                  let* _ :=
                    rpc (add_org_group_repo_call repo_id org_id group_id
                           username permission)
                      (add_org_group_repo svc repo_id org_id group_id
                         username permission)
                  in
                  ret repo_id
              | None =>
                  let* repo_id :=
                    rpc (create_repo_call repo_name "" username password)
                      (create_repo svc repo_name "" username password)
                  in
                  let* _ :=
                    rpc (set_group_repo_call repo_id group_id username
                           permission)
                      (set_group_repo svc repo_id group_id username
                         permission)
                  in
                  ret repo_id
              end
            in
            let library_template :=
              default "" (request_data request !! "library_template")
            in
            let* _ :=
              emit (repo_created_send org_id username repo_id repo_name
                      library_template)
            in
            let* repo :=
              read (fun w => get_repo svc (service_state w) repo_id)
            in
            match repo with
            | None => raise (* attribute access on None *)
            | Some repo =>
                let modifier := Repo.last_modifier repo in
                ret (Response_ok (Info
                  {| repo_id := Repo.id repo;
                     repo_name := Repo.name repo;
                     mtime :=
                       timestamp_to_isoformat_timestr svc
                         (Repo.last_modified repo);
                     permission := permission;
                     size := Repo.size repo;
                     encrypted := Repo.encrypted repo;
                     owner_email := username;
                     owner_name := email2nickname svc username;
                     owner_contact_name := email2contact_email svc username;
                     modifier_email := modifier;
                     modifier_name := email2nickname svc modifier;
                     modifier_contact_email :=
                       email2contact_email svc modifier |}))
            end.

Definition GroupLibraries_post (request : Request) : Z -> M St Response :=
  api_check_group (GroupLibraries_post_view request).

(** [GroupLibrary.delete], the decorated function. *)
Definition GroupLibrary_delete_view (request : Request) (group_id : Z)
    (repo_id : string) : M St Response :=
  let* repo := read (fun w => get_repo svc (service_state w) repo_id) in
  match repo with
  | None =>
      ret (api_error HTTP_404_NOT_FOUND
             ("Library " +:+ repo_id +:+ " not found."))
  | Some _ =>
      (* only group admin or repo owner can delete group repo. *)
      let username := username request in
      let* repo_owner :=
        read (fun w => get_repo_owner svc (service_state w) repo_id)
      in
      let* denied :=
        read (fun w =>
                negb (is_group_admin svc (service_state w) group_id username)
                && negb (bool_decide (repo_owner = Some username))
                && negb (is_repo_admin svc (service_state w)
                           (share_permissions w) username repo_id))
      in
      if denied then
        ret (api_error HTTP_403_FORBIDDEN "Permission denied.")
      else
        let* org_group :=
          read (fun w => is_org_group svc (service_state w) group_id)
        in
        let* _ :=
          if org_group then
            let* org_id :=
              read (fun w =>
                      get_org_id_by_group svc (service_state w) group_id)
            in
            rpc (del_org_group_repo_call repo_id org_id group_id)
              (del_org_group_repo svc repo_id org_id group_id)
          else
            rpc (unset_group_repo_call repo_id group_id username)
              (unset_group_repo svc repo_id group_id username)
        in
        (* delete extra share permission *)
        let* _ := delete_share_permission repo_id group_id in
        let* repo := read (fun w => get_repo svc (service_state w) repo_id) in
        match repo with
        | None => raise (* attribute access on None *)
        | Some repo =>
            let origin_repo_id := py_or (Repo.origin_repo_id repo) repo_id in
            let origin_path := py_or (Repo.origin_path repo) "/" in
            let* _ :=
              emit (send_perm_audit_msg "delete-repo-perm" username group_id
                      origin_repo_id origin_path "")
            in
            ret (Response_ok SuccessTrue)
        end
  end.

Definition GroupLibrary_delete (request : Request) (group_id : Z)
    (repo_id : string) : M St Response :=
  api_check_group
    (fun group_id => GroupLibrary_delete_view request group_id repo_id)
    group_id.

End Handlers.

(** ** A reference service

    A small list-backed repository service with which the handlers can be
    run.  Groups carry their organisation, if any; members carry an admin
    flag; repositories carry their owner; a share binds a repository to a
    group.  Unsharing the last binding of a sub-library (a repository with
    an origin) removes the sub-library itself.  [recorded_modifier] is what
    the service records as last modifier of a library created by a user. *)
Module Demo.

Record state := mk_state {
  groups : list (Z * option Z);
  members : list (Z * string * bool);
  repos : list (Repo.t * string);
  shares : list (string * Z * string);
  encryption : bool;
  clock : Z
}.

Definition get_group (s : state) (group_id : Z) : bool :=
  existsb (fun g => fst g =? group_id) (groups s).

Definition is_group_member (s : state) (group_id : Z) (user : string) : bool :=
  existsb (fun m => (fst (fst m) =? group_id) && String.eqb (snd (fst m)) user)
    (members s).

Definition is_group_admin (s : state) (group_id : Z) (user : string) : bool :=
  existsb
    (fun m =>
       (fst (fst m) =? group_id) && String.eqb (snd (fst m)) user && snd m)
    (members s).

Definition group_org (s : state) (group_id : Z) : option Z :=
  match find (fun g => fst g =? group_id) (groups s) with
  | Some g => snd g
  | None => None
  end.

Definition is_org_group (s : state) (group_id : Z) : bool :=
  bool_decide (is_Some (group_org s group_id)).

Definition get_org_id_by_group (s : state) (group_id : Z) : Z :=
  default (-1) (group_org s group_id).

Definition is_repo_admin (s : state)
    (rows : list ExtraGroupsSharePermission.t) (user repo_id : string)
    : bool :=
  existsb
    (fun row =>
       String.eqb (ExtraGroupsSharePermission.repo_id row) repo_id
       && String.eqb (ExtraGroupsSharePermission.permission row) "admin"
       && is_group_member s (ExtraGroupsSharePermission.group_id row) user)
    rows.

Definition find_repo (s : state) (repo_id : string)
    : option (Repo.t * string) :=
  find (fun r => String.eqb (Repo.id (fst r)) repo_id) (repos s).

Definition get_repo (s : state) (repo_id : string) : option Repo.t :=
  fst <$> find_repo s repo_id.

Definition get_repo_owner (s : state) (repo_id : string) : option string :=
  snd <$> find_repo s repo_id.

Definition group_repo (s : state) (share : string * Z * string)
    : option GroupRepo.t :=
  r ← find_repo s (fst (fst share));
  Some (GroupRepo.mk (Repo.id (fst r)) (Repo.name (fst r))
          (Repo.last_modified (fst r)) (snd share) (Repo.size (fst r))
          (Repo.encrypted (fst r)) (snd r) (Repo.last_modifier (fst r))).

Definition get_repos_by_group (s : state) (group_id : Z) : list GroupRepo.t :=
  omap (group_repo s)
    (List.filter (fun sh => snd (fst sh) =? group_id) (shares s)).

Definition get_org_group_repos (s : state) (org_id group_id : Z)
    : list GroupRepo.t :=
  if bool_decide (group_org s group_id = Some org_id)
  then get_repos_by_group s group_id
  else [].

Definition fresh_repo_id (s : state) : string :=
  "repo-" +:+ pretty (length (repos s)).

Section Mutations.
Variable recorded_modifier : string -> string.

Definition create_repo (name desc user : string) (passwd : option string)
    (s : state) : option string * state :=
  let repo_id := fresh_repo_id s in
  let repo :=
    Repo.mk repo_id name (clock s) 0 (truthy passwd)
      (recorded_modifier user) None None
  in
  (Some repo_id,
   mk_state (groups s) (members s) (repos s ++ [(repo, user)]) (shares s)
     (encryption s) (clock s + 1)).

Definition create_org_repo (name desc user : string)
    (passwd : option string) (org_id : Z) (s : state)
    : option string * state :=
  create_repo name desc user passwd s.

Definition set_group_repo (repo_id : string) (group_id : Z)
    (user permission : string) (s : state) : option unit * state :=
  (Some tt,
   mk_state (groups s) (members s) (repos s)
     (shares s ++ [(repo_id, group_id, permission)])
     (encryption s) (clock s)).

Definition add_org_group_repo (repo_id : string) (org_id group_id : Z)
    (user permission : string) (s : state) : option unit * state :=
  set_group_repo repo_id group_id user permission s.

Definition is_sub_library (r : Repo.t) : bool :=
  truthy (Repo.origin_repo_id r).

Definition unbind (repo_id : string) (group_id : Z) (s : state)
    : option unit * state :=
  let shares' :=
    List.filter
      (fun sh =>
         negb (String.eqb (fst (fst sh)) repo_id
               && (snd (fst sh) =? group_id)))
      (shares s)
  in
  let still_shared :=
    existsb (fun sh => String.eqb (fst (fst sh)) repo_id) shares'
  in
  let repos' :=
    List.filter
      (fun r =>
         negb (String.eqb (Repo.id (fst r)) repo_id
               && is_sub_library (fst r) && negb still_shared))
      (repos s)
  in
  (Some tt,
   mk_state (groups s) (members s) repos' shares' (encryption s) (clock s)).

Definition unset_group_repo (repo_id : string) (group_id : Z)
    (user : string) (s : state) : option unit * state :=
  unbind repo_id group_id s.

Definition del_org_group_repo (repo_id : string) (org_id group_id : Z)
    (s : state) : option unit * state :=
  unbind repo_id group_id s.

Definition is_valid_dirent_name (name : string) : bool :=
  negb (existsb (fun c => Ascii.eqb c "/"%char || Ascii.eqb c "000"%char)
          (String.list_ascii_of_string name)).

Definition service : Service state :=
  mk_service state
    get_group is_group_member is_group_admin is_org_group
    get_org_id_by_group is_repo_admin
    (fun s group_id => Some (get_repos_by_group s group_id))
    (fun s org_id group_id => Some (get_org_group_repos s org_id group_id))
    get_repo get_repo_owner
    create_repo create_org_repo set_group_repo add_org_group_repo
    unset_group_repo del_org_group_repo
    encryption is_valid_dirent_name
    pretty (fun email => email) (fun email => email).
End Mutations.

End Demo.

(** Concrete worlds over the reference service: group 42 is a plain group
    with members alice, bob and the admin carol; group 43 belongs to
    organisation 7.  Library repo-2 is a sub-library of repo-1. *)
Module Scenario.
Import Demo.

Definition notes : Repo.t :=
  Repo.mk "repo-0" "Notes" 100 10 false "alice@x.com" None None.
Definition docs : Repo.t :=
  Repo.mk "repo-1" "Docs" 300 20 false "bob@x.com" None None.
Definition sub : Repo.t :=
  Repo.mk "repo-2" "Sub" 200 5 false "alice@x.com" (Some "repo-1")
    (Some "/sub").

Definition chapter : Repo.t :=
  Repo.mk "repo-3" "Chapter" 200 7 false "alice@x.com" (Some "repo-0")
    (Some "/a/b").

Definition initial : state :=
  mk_state
    [(42, None); (43, Some 7)]
    [(42, "alice@x.com", false); (42, "bob@x.com", false);
     (42, "carol@x.com", true); (43, "dave@x.com", true)]
    [(notes, "alice@x.com"); (docs, "alice@x.com"); (sub, "alice@x.com");
     (chapter, "alice@x.com")]
    [("repo-0", 42, "rw"); ("repo-1", 42, "r"); ("repo-2", 42, "rw");
     ("repo-3", 42, "rw"); ("repo-1", 43, "rw"); ("repo-3", 43, "r")]
    false 1000.

Definition rows : list ExtraGroupsSharePermission.t :=
  [ExtraGroupsSharePermission.mk "repo-1" 42 "admin";
   ExtraGroupsSharePermission.mk "repo-0" 42 "rw";
   ExtraGroupsSharePermission.mk "repo-2" 42 "rw";
   ExtraGroupsSharePermission.mk "repo-3" 42 "rw";
   ExtraGroupsSharePermission.mk "repo-3" 43 "r"].

Definition world : World state := mk_world initial rows [].

Definition user (name : string) (can_add : bool) (org : option Z)
    (data : list (string * string)) : Request :=
  mk_request name can_add org (list_to_map data).

Definition alice := "alice@x.com".
Definition bob := "bob@x.com".
Definition carol := "carol@x.com".
Definition dave := "dave@x.com".
Definition mallory := "mallory@x.com".

(** A request without a body, outside any organisation. *)
Definition as_user (name : string) : Request := user name true None [].

(** alice creates "Notes" with permission rw. *)
Definition create_notes : Request :=
  user alice true None [("repo_name", "Notes"); ("permission", "rw")].

(** mallory, who may not add repositories and is in no group, asks for an
    encrypted library with an unknown permission value. *)
Definition create_encrypted : Request :=
  user mallory false None
    [("repo_name", "Secret"); ("password", "pw"); ("permission", "admin")].

(** The service as the seafile server behaves: the creator is recorded as
    the last modifier of a new library. *)
Definition svc : Service state := service (fun creator => creator).


(** Services with a failing part: the binding call raises, the unbinding
    call raises, or a library that was just created cannot be fetched. *)
Definition broken (bind_raises unbind_raises loses_new : bool)
    : Service state :=
  mk_service state
    get_group is_group_member is_group_admin is_org_group
    get_org_id_by_group is_repo_admin
    (fun s group_id => Some (get_repos_by_group s group_id))
    (fun s org_id group_id => Some (get_org_group_repos s org_id group_id))
    get_repo get_repo_owner
    (fun name desc user passwd s =>
       if loses_new then (Some (fresh_repo_id s), s)
       else create_repo (fun creator => creator) name desc user passwd s)
    (fun name desc user passwd org_id s =>
       if loses_new then (Some (fresh_repo_id s), s)
       else create_org_repo (fun creator => creator) name desc user passwd
              org_id s)
    (fun repo_id group_id user permission s =>
       if bind_raises then (None, s)
       else set_group_repo repo_id group_id user permission s)
    (fun repo_id org_id group_id user permission s =>
       if bind_raises then (None, s)
       else add_org_group_repo repo_id org_id group_id user permission s)
    (fun repo_id group_id user s =>
       if unbind_raises then (None, s)
       else unset_group_repo repo_id group_id user s)
    (fun repo_id org_id group_id s =>
       if unbind_raises then (None, s)
       else del_org_group_repo repo_id org_id group_id s)
    encryption is_valid_dirent_name
    pretty (fun email => email) (fun email => email).

(** A service whose listing calls raise. *)
Definition listing_down : Service state :=
  mk_service state
    get_group is_group_member is_group_admin is_org_group
    get_org_id_by_group is_repo_admin
    (fun _ _ => None) (fun _ _ _ => None) get_repo get_repo_owner
    (create_repo (fun creator => creator))
    (create_org_repo (fun creator => creator))
    set_group_repo add_org_group_repo unset_group_repo del_org_group_repo
    encryption is_valid_dirent_name
    pretty (fun email => email) (fun email => email).

(** alice creates "Plain" and names no permission. *)
Definition create_plain : Request :=
  user alice true None [("repo_name", "Plain")].

(** alice sends an empty password. *)
Definition create_empty_password : Request :=
  user alice true None [("repo_name", "Plain"); ("password", "")].

(** alice names no library, and asks for encryption with a permission
    value that does not exist. *)
Definition create_nameless : Request :=
  user alice true None [("password", "pw"); ("permission", "admin")].

(** mallory, without the capability and outside the group, asks for admin
    permission. *)
Definition create_admin : Request :=
  user mallory false None [("repo_name", "Mine"); ("permission", "admin")].

(** dave creates a library from a template inside organisation 7. *)
Definition create_in_org : Request :=
  user dave true (Some 7) [("repo_name", "Org"); ("library_template", "wiki")].
End Scenario.

(** ** Vocabulary of the properties *)

Section Vocabulary.
Context {St : Type} (svc : Service St).

(** The listing the list operation reads: the organisation-scoped call in
    an organisation context, the global call otherwise; [None] when the
    call raises. *)
Definition listed_repos (s : St) (request : Request) (group_id : Z)
    : option (list GroupRepo.t) :=
  match org_context request with
  | Some org_id => get_org_group_repos svc s org_id group_id
  | None => get_repos_by_group svc s group_id
  end.

(** The three validation checks of the create operation. *)
Definition repo_name_valid (request : Request) : bool :=
  let repo_name := request_data request !! "repo_name" in
  truthy repo_name && is_valid_dirent_name svc (default "" repo_name).

Definition encryption_allowed (s : St) (request : Request) : bool :=
  negb (truthy (request_data request !! "password"))
  || ENABLE_ENCRYPTED_LIBRARY svc s.

Definition permission_valid (request : Request) : bool :=
  bool_decide (default "rw" (request_data request !! "permission")
               ∈ ["r"; "rw"]).

(** The unbinding call of the delete operation: which call is made, and
    what it does to the service. *)
Definition unbind_call (s : St) (request : Request) (repo_id0 : string)
    (group_id : Z) : Effect :=
  if is_org_group svc s group_id then
    del_org_group_repo_call repo_id0 (get_org_id_by_group svc s group_id)
      group_id
  else unset_group_repo_call repo_id0 group_id (username request).

Definition unbind_group_repo (s : St) (request : Request)
    (repo_id0 : string) (group_id : Z) : option unit * St :=
  if is_org_group svc s group_id then
    del_org_group_repo svc repo_id0 (get_org_id_by_group svc s group_id)
      group_id s
  else unset_group_repo svc repo_id0 group_id (username request) s.

Definition is_unbind_call (e : Effect) : bool :=
  match e with
  | unset_group_repo_call _ _ _ | del_org_group_repo_call _ _ _ => true
  | _ => false
  end.

(** A record is the projection of a listed repository: every field, as the
    list operation is to fill it. *)
Definition projected (r : GroupRepo.t) (info : group_repo_info) : Prop :=
  repo_id info = GroupRepo.repo_id r
  /\ repo_name info = GroupRepo.name r
  /\ mtime info
     = timestamp_to_isoformat_timestr svc (GroupRepo.last_modified r)
  /\ permission info = GroupRepo.permission r
  /\ size info = GroupRepo.size r
  /\ encrypted info = GroupRepo.encrypted r
  /\ owner_email info = GroupRepo.user r
  /\ owner_name info = email2nickname svc (GroupRepo.user r)
  /\ owner_contact_name info = email2contact_email svc (GroupRepo.user r)
  /\ modifier_email info = GroupRepo.last_modifier r
  /\ modifier_name info = email2nickname svc (GroupRepo.last_modifier r)
  /\ modifier_contact_email info
     = email2contact_email svc (GroupRepo.last_modifier r).

(** The audit message of a delete, from the re-fetched repository. *)
Definition delete_audit_msg (request : Request) (repo_id0 : string)
    (group_id : Z) (repo : Repo.t) : Effect :=
  send_perm_audit_msg "delete-repo-perm" (username request) group_id
    (py_or (Repo.origin_repo_id repo) repo_id0)
    (py_or (Repo.origin_path repo) "/") "".

End Vocabulary.

(** Vocabulary of the create operation: what the request asks for, which
    calls a create that passed its checks makes, and the record it
    returns. *)
Section CreateVocabulary.
Context {St : Type} (svc : Service St).

Definition requested_name (request : Request) : string :=
  default "" (request_data request !! "repo_name").

Definition requested_password (request : Request) : option string :=
  request_data request !! "password".

Definition requested_permission (request : Request) : string :=
  default "rw" (request_data request !! "permission").

Definition requested_template (request : Request) : string :=
  default "" (request_data request !! "library_template").

Definition creation_call (request : Request) : Effect :=
  match org_context request with
  | Some org_id =>
      create_org_repo_call (requested_name request) "" (username request)
        (requested_password request) org_id
  | None =>
      create_repo_call (requested_name request) "" (username request)
        (requested_password request)
  end.

Definition creation (request : Request) (s : St) : option string * St :=
  match org_context request with
  | Some org_id =>
      create_org_repo svc (requested_name request) "" (username request)
        (requested_password request) org_id s
  | None =>
      create_repo svc (requested_name request) "" (username request)
        (requested_password request) s
  end.

Definition binding_call (request : Request) (group_id : Z)
    (new_id : string) : Effect :=
  match org_context request with
  | Some org_id =>
      add_org_group_repo_call new_id org_id group_id (username request)
        (requested_permission request)
  | None =>
      set_group_repo_call new_id group_id (username request)
        (requested_permission request)
  end.

Definition binding (request : Request) (group_id : Z) (new_id : string)
    (s : St) : option unit * St :=
  match org_context request with
  | Some org_id =>
      add_org_group_repo svc new_id org_id group_id (username request)
        (requested_permission request) s
  | None =>
      set_group_repo svc new_id group_id (username request)
        (requested_permission request) s
  end.

Definition created_signal (request : Request) (new_id : string) : Effect :=
  repo_created_send (default (-1) (org_context request)) (username request)
    new_id (requested_name request) (requested_template request).

Definition created_info (request : Request) (repo : Repo.t)
    : group_repo_info :=
  {| repo_id := Repo.id repo;
     repo_name := Repo.name repo;
     mtime := timestamp_to_isoformat_timestr svc (Repo.last_modified repo);
     permission := requested_permission request;
     size := Repo.size repo;
     encrypted := Repo.encrypted repo;
     owner_email := username request;
     owner_name := email2nickname svc (username request);
     owner_contact_name := email2contact_email svc (username request);
     modifier_email := Repo.last_modifier repo;
     modifier_name := email2nickname svc (Repo.last_modifier repo);
     modifier_contact_email :=
       email2contact_email svc (Repo.last_modifier repo) |}.

(** The checks of the create operation, all at once. *)
Definition create_checks (s : St) (request : Request) (group_id : Z) : bool :=
  repo_name_valid svc request
  && encryption_allowed svc s request
  && permission_valid request
  && can_add_repo request
  && is_group_member svc s group_id (username request).

(** The authorisation of the delete operation. *)
Definition may_delete (w : World St) (request : Request) (group_id : Z)
    (repo_id0 : string) : bool :=
  is_group_admin svc (service_state w) group_id (username request)
  || bool_decide (get_repo_owner svc (service_state w) repo_id0
                  = Some (username request))
  || is_repo_admin svc (service_state w) (share_permissions w)
       (username request) repo_id0.

End CreateVocabulary.

(** ** Python values *)

Lemma py_or_None (d : string) : py_or None d = d.
Proof. reflexivity. Qed.

Lemma py_or_empty (d : string) : py_or (Some "") d = d.
Proof. reflexivity. Qed.

Lemma py_or_Some (s d : string) : s <> "" -> py_or (Some s) d = s.
Proof. intros Hs%String.eqb_neq. unfold py_or. by rewrite Hs. Qed.

(** ** Sorting *)

Section Sorting.
Context {A : Type} (cmpfunc : A -> A -> Z).

Let before (x y : A) : Prop := cmpfunc x y <= 0.

Hypothesis cmpfunc_flip : forall x y, 0 < cmpfunc x y -> cmpfunc y x <= 0.
Hypothesis cmpfunc_trans :
  forall x y z, cmpfunc x y <= 0 -> cmpfunc y z <= 0 -> cmpfunc x z <= 0.

Lemma py_insert_perm (x : A) (l : list A) : py_insert cmpfunc x l ≡ₚ x :: l.
Proof.
  induction l as [|y l IH]; simpl; [done|].
  destruct (cmpfunc x y <=? 0); [done|].
  rewrite IH. apply Permutation_swap.
Qed.

Lemma py_sort_perm (l : list A) : py_sort cmpfunc l ≡ₚ l.
Proof.
  induction l as [|x l IH]; simpl; [done|].
  by rewrite py_insert_perm, IH.
Qed.

Lemma py_insert_sorted (x : A) (l : list A) :
  StronglySorted before l -> StronglySorted before (py_insert cmpfunc x l).
Proof using cmpfunc_flip cmpfunc_trans.
  induction l as [|y l IH]; intros Hs; simpl.
  - repeat constructor.
  - apply StronglySorted_cons in Hs as [Hy Hl].
    destruct (Z.leb_spec (cmpfunc x y) 0) as [Hxy|Hxy].
    + apply StronglySorted_cons. split; [|by apply StronglySorted_cons].
      constructor; [exact Hxy|].
      eapply Forall_impl; [exact Hy|].
      intros z Hz. unfold before in *. eauto.
    + apply StronglySorted_cons. split; [|by apply IH].
      rewrite py_insert_perm. constructor; [|exact Hy].
      unfold before. by apply cmpfunc_flip.
Qed.

Lemma py_sort_sorted (l : list A) : StronglySorted before (py_sort cmpfunc l).
Proof using cmpfunc_flip cmpfunc_trans.
  induction l as [|x l IH]; simpl; [constructor|].
  by apply py_insert_sorted.
Qed.

(** Stability: the elements of a class [P] whose members never compare
    greater than one another keep their input order. *)
Lemma py_insert_filter (P : A -> Prop) `{!forall x, Decision (P x)} (x : A)
    (l : list A) :
  (forall a b, P a -> P b -> cmpfunc a b <= 0) ->
  filter P (py_insert cmpfunc x l) = filter P (x :: l).
Proof.
  intros Hclass. induction l as [|y l IH]; simpl; [done|].
  destruct (Z.leb_spec (cmpfunc x y) 0) as [Hxy|Hxy]; [done|].
  rewrite (filter_cons _ y), IH, !filter_cons.
  destruct (decide (P y)) as [Hy|Hy], (decide (P x)) as [Hx|Hx]; try done.
  specialize (Hclass x y Hx Hy). lia.
Qed.

Lemma py_sort_stable (P : A -> Prop) `{!forall x, Decision (P x)}
    (l : list A) :
  (forall a b, P a -> P b -> cmpfunc a b <= 0) ->
  filter P (py_sort cmpfunc l) = filter P l.
Proof.
  intros Hclass. induction l as [|x l IH]; simpl; [done|].
  rewrite py_insert_filter by done. by rewrite !filter_cons, IH.
Qed.

Lemma StronglySorted_lookup_lt (R : relation A) (l : list A) (i j : nat)
    (x y : A) :
  StronglySorted R l -> (i < j)%nat ->
  l !! i = Some x -> l !! j = Some y -> R x y.
Proof.
  intros Hs. revert i j.
  induction Hs as [|a l Hs IH Ha]; intros i j Hij Hi Hj; [done|].
  destruct j as [|j]; [lia|]. simpl in Hj.
  destruct i as [|i]; simpl in Hi.
  - injection Hi as <-. rewrite Forall_lookup in Ha. eauto.
  - apply (IH i j); [lia|done..].
Qed.

Lemma py_sort_lookup_lt (l : list A) (i j : nat) (x y : A) :
  (i < j)%nat ->
  py_sort cmpfunc l !! i = Some x -> py_sort cmpfunc l !! j = Some y ->
  cmpfunc x y <= 0.
Proof using cmpfunc_flip cmpfunc_trans.
  intros. eapply (StronglySorted_lookup_lt before); eauto using py_sort_sorted.
Qed.
End Sorting.

Lemma cmp_nonpos (a b : Z) : cmp a b <= 0 <-> a <= b.
Proof. unfold cmp. destruct (Z.compare_spec a b); lia. Qed.

Lemma cmp_pos (a b : Z) : 0 < cmp a b <-> b < a.
Proof. unfold cmp. destruct (Z.compare_spec a b); lia. Qed.

(** ** Running the handlers *)

Ltac run :=
  unfold GroupLibraries_get, GroupLibraries_post, GroupLibrary_delete,
    api_check_group, GroupLibraries_get_view, GroupLibraries_post_view,
    GroupLibrary_delete_view, delete_share_permission, bind, read, query,
    ret, raise, rpc, emit;
  cbn beta iota.

Section Properties.
Context {St : Type} (svc : Service St).
Implicit Types (w : World St) (request : Request) (group_id : Z).

(** The group check lets the view run exactly when the group exists. *)
Lemma api_check_group_found func group_id w :
  get_group svc (service_state w) group_id = true ->
  api_check_group svc func group_id w = func group_id w.
Proof. intros Hg. unfold api_check_group, bind, read. by rewrite Hg. Qed.

Lemma api_check_group_missing func group_id w :
  get_group svc (service_state w) group_id = false ->
  api_check_group svc func group_id w
  = (Some (api_error HTTP_404_NOT_FOUND "Group not found."), w).
Proof. intros Hg. unfold api_check_group, bind, read. by rewrite Hg. Qed.

(** The list view, computed. *)
Lemma get_view_run request group_id w :
  GroupLibraries_get_view svc request group_id w
  = if is_group_member svc (service_state w) group_id (username request)
    then
      match listed_repos svc (service_state w) request group_id with
      | Some listing =>
          (Some (Response_ok (InfoList
             (map (get_group_repo_info svc)
                (py_sort
                   (fun x y =>
                      cmp (GroupRepo.last_modified y)
                        (GroupRepo.last_modified x))
                   listing)))),
           w)
      | None => (None, w)
      end
    else (Some PermissionDenied, w).
Proof.
  run. unfold listed_repos.
  destruct (is_group_member _ _ _ _); [|done].
  destruct (org_context request); cbn;
    [destruct (get_org_group_repos _ _ _ _)
    |destruct (get_repos_by_group _ _ _)]; done.
Qed.

(** Every record of the list operation is filled from its repository. *)
Lemma get_group_repo_info_projected (l : list GroupRepo.t) :
  Forall2 (projected svc) l (map (get_group_repo_info svc) l).
Proof.
  induction l as [|r l IH]; constructor; [|exact IH].
  repeat split.
Qed.

(** The delete view, computed, once the repository resolves. *)
Lemma delete_view_run request repo_id0 group_id w r :
  get_repo svc (service_state w) repo_id0 = Some r ->
  GroupLibrary_delete_view svc request group_id repo_id0 w
  = let s := service_state w in
    if is_group_admin svc s group_id (username request)
       || bool_decide (get_repo_owner svc s repo_id0 = Some (username request))
       || is_repo_admin svc s (share_permissions w) (username request)
            repo_id0
    then
      let e := unbind_call svc s request repo_id0 group_id in
      match unbind_group_repo svc s request repo_id0 group_id with
      | (None, s') =>
          (None, mk_world s' (share_permissions w) (emitted w ++ [e]))
      | (Some _, s') =>
          let rows :=
            ExtraGroupsSharePermission.delete_share_permission repo_id0
              group_id (share_permissions w)
          in
          let d := delete_share_permission_call repo_id0 group_id in
          match get_repo svc s' repo_id0 with
          | None => (None, mk_world s' rows ((emitted w ++ [e]) ++ [d]))
          | Some repo =>
              (Some (Response_ok SuccessTrue),
               mk_world s' rows
                 (((emitted w ++ [e]) ++ [d])
                  ++ [delete_audit_msg request repo_id0 group_id repo]))
          end
      end
    else (Some PermissionDenied, w).
Proof.
  intros Hr. run. rewrite Hr. cbn beta iota zeta.
  unfold unbind_call, unbind_group_repo.
  destruct (is_group_admin _ _ _ _), (bool_decide _), (is_repo_admin _ _ _ _ _);
    cbn [negb andb orb]; try done;
    (destruct (is_org_group _ _ _); cbn beta iota;
     [destruct (del_org_group_repo _ _ _ _ _) as [[[]|] s']
     |destruct (unset_group_repo _ _ _ _ _) as [[[]|] s']];
     cbn [service_state share_permissions emitted]; try done;
     by destruct (get_repo svc s' repo_id0)).
Qed.

Lemma delete_found request group_id repo_id0 w :
  get_group svc (service_state w) group_id = true ->
  GroupLibrary_delete svc request group_id repo_id0 w
  = GroupLibrary_delete_view svc request group_id repo_id0 w.
Proof.
  intros Hg. unfold GroupLibrary_delete. by rewrite api_check_group_found.
Qed.

(** A delete that answers with status 200 went through every step. *)
Lemma delete_success_inv request repo_id0 group_id w resp w' :
  GroupLibrary_delete svc request group_id repo_id0 w = (Some resp, w') ->
  status_code resp = HTTP_200_OK ->
  exists s' repo,
    unbind_group_repo svc (service_state w) request repo_id0 group_id
    = (Some tt, s')
    /\ get_repo svc s' repo_id0 = Some repo
    /\ resp = Response_ok SuccessTrue
    /\ w' = mk_world s'
              (ExtraGroupsSharePermission.delete_share_permission repo_id0
                 group_id (share_permissions w))
              (emitted w
               ++ [unbind_call svc (service_state w) request repo_id0 group_id;
                   delete_share_permission_call repo_id0 group_id;
                   delete_audit_msg request repo_id0 group_id repo]).
Proof.
  intros Hrun Hok. unfold GroupLibrary_delete in Hrun.
  destruct (get_group svc (service_state w) group_id) eqn:Hg.
  2:{ rewrite api_check_group_missing in Hrun by done.
      injection Hrun as <- <-. done. }
  rewrite api_check_group_found in Hrun by done. cbn beta in Hrun.
  destruct (get_repo svc (service_state w) repo_id0) as [r|] eqn:Hr.
  2:{ revert Hrun. run. rewrite Hr. intros [= <- <-]. done. }
  rewrite (delete_view_run _ _ _ _ r Hr) in Hrun. cbn zeta in Hrun.
  destruct (_ || _ || _).
  2:{ injection Hrun as <- <-. done. }
  destruct (unbind_group_repo _ _ _ _ _) as [[[]|] s']; [|done].
  destruct (get_repo svc s' repo_id0) as [repo|] eqn:Hr'; [|done].
  injection Hrun as <- <-. exists s', repo.
  by rewrite <- !(assoc_L (++)).
Qed.

(** *** The list operation *)

(** C2: for an existing group, the list operation answers
    PermissionDenied exactly when the acting user is not a member of the
    group; for a member, once the listing call has returned, it returns
    with status 200 the repository list: one record per listed repository,
    each filled field by field from its repository, and the world is left
    as it was. *)
Theorem list_permission_denied_iff request group_id w :
  get_group svc (service_state w) group_id = true ->
  (fst (GroupLibraries_get svc request group_id w) = Some PermissionDenied
   <-> is_group_member svc (service_state w) group_id (username request)
       = false)
  /\ (forall listing,
        is_group_member svc (service_state w) group_id (username request)
        = true ->
        listed_repos svc (service_state w) request group_id = Some listing ->
        exists repos result,
          GroupLibraries_get svc request group_id w
          = (Some (Response_ok (InfoList result)), w)
          /\ repos ≡ₚ listing
          /\ Forall2 (projected svc) repos result).
Proof.
  intros Hg. unfold GroupLibraries_get.
  rewrite api_check_group_found, get_view_run by done.
  destruct (is_group_member _ _ _ _); split.
  - destruct (listed_repos _ _ _ _); cbn [fst]; split; [intros [=]|done..].
  - intros listing _ ->. do 2 eexists. split; [done|].
    split; [apply py_sort_perm|apply get_group_repo_info_projected].
  - done.
  - done.
Qed.

(** A list operation that returns a list went through the sort. *)
Lemma get_success_inv request group_id w result w' :
  GroupLibraries_get svc request group_id w
  = (Some (Response_ok (InfoList result)), w') ->
  w' = w
  /\ exists listing,
       listed_repos svc (service_state w) request group_id = Some listing
       /\ result
          = map (get_group_repo_info svc)
              (py_sort
                 (fun x y =>
                    cmp (GroupRepo.last_modified y)
                      (GroupRepo.last_modified x))
                 listing).
Proof.
  intros Hrun. unfold GroupLibraries_get in Hrun.
  destruct (get_group svc (service_state w) group_id) eqn:Hg.
  2:{ by rewrite api_check_group_missing in Hrun. }
  rewrite api_check_group_found, get_view_run in Hrun by done.
  destruct (is_group_member _ _ _ _); [|done].
  destruct (listed_repos _ _ _ _) as [listing|]; [|done].
  injection Hrun as <- <-. eauto.
Qed.

(** The comparison of the list operation puts later timestamps first. *)
Lemma py_sort_newer_first (l : list GroupRepo.t) (i j : nat) x y :
  (i < j)%nat ->
  py_sort
    (fun x y => cmp (GroupRepo.last_modified y) (GroupRepo.last_modified x))
    l !! i = Some x ->
  py_sort
    (fun x y => cmp (GroupRepo.last_modified y) (GroupRepo.last_modified x))
    l !! j = Some y ->
  GroupRepo.last_modified y <= GroupRepo.last_modified x.
Proof.
  intros Hij Hi Hj. apply cmp_nonpos.
  revert Hi Hj. apply py_sort_lookup_lt; [| |done].
  - intros a b. rewrite cmp_pos, cmp_nonpos. lia.
  - intros a b c. rewrite !cmp_nonpos. lia.
Qed.

(** C3: the records of a successful list operation are the projections of
    the listed repositories, rearranged so that the last-modified
    timestamp never increases along the list: for i < j the repository
    behind result[i] was modified no earlier than the one behind
    result[j]. *)
Theorem list_sorted_by_mtime_desc request group_id w result w' :
  GroupLibraries_get svc request group_id w
  = (Some (Response_ok (InfoList result)), w') ->
  exists repos listing,
    listed_repos svc (service_state w) request group_id = Some listing
    /\ result = map (get_group_repo_info svc) repos
    /\ repos ≡ₚ listing
    /\ forall (i j : nat) x y,
         (i < j)%nat -> repos !! i = Some x -> repos !! j = Some y ->
         GroupRepo.last_modified x >= GroupRepo.last_modified y.
Proof.
  intros [_ (listing & Hlisting & ->)]%get_success_inv.
  eexists _, listing. split; [done|]. split; [done|]. split.
  - apply py_sort_perm.
  - intros i j x y Hij Hi Hj. apply Z.le_ge. eauto using py_sort_newer_first.
Qed.

(** Repositories with the same timestamp stay in the order of the
    listing. *)
Lemma list_ties_keep_order request group_id w result w' (t : Z) :
  GroupLibraries_get svc request group_id w
  = (Some (Response_ok (InfoList result)), w') ->
  exists repos listing,
    listed_repos svc (service_state w) request group_id = Some listing
    /\ result = map (get_group_repo_info svc) repos
    /\ filter (fun r => GroupRepo.last_modified r = t) repos
       = filter (fun r => GroupRepo.last_modified r = t) listing.
Proof.
  intros [_ (listing & Hlisting & ->)]%get_success_inv.
  eexists _, listing. split; [done|]. split; [done|].
  apply py_sort_stable. intros a b -> ->. apply cmp_nonpos. lia.
Qed.

(** The same order read on the formatted [mtime] of the records, for any
    formatting of timestamps that keeps their order. *)
Corollary list_mtime_desc (le_str : relation string) request group_id w
    result w' :
  (forall a b, a <= b ->
     le_str (timestamp_to_isoformat_timestr svc a)
            (timestamp_to_isoformat_timestr svc b)) ->
  GroupLibraries_get svc request group_id w
  = (Some (Response_ok (InfoList result)), w') ->
  forall (i j : nat) a b,
    (i < j)%nat -> result !! i = Some a -> result !! j = Some b ->
    le_str (mtime b) (mtime a).
Proof.
  intros Hmono [_ (listing & _ & ->)]%get_success_inv i j a b Hij Ha Hb.
  change (map ?f ?l) with (f <$> l) in Ha, Hb.
  rewrite list_lookup_fmap in Ha, Hb.
  destruct (py_sort _ _ !! i) as [x|] eqn:Hx; [|done].
  destruct (py_sort _ _ !! j) as [y|] eqn:Hy; [|done].
  injection Ha as <-. injection Hb as <-. cbn.
  apply Hmono. eauto using py_sort_newer_first.
Qed.

(** *** The delete operation *)

(** C1: with the group and the repository in place, the delete operation
    answers PermissionDenied exactly when the acting user is no group
    admin, is not the recorded owner and holds no repo-admin grant; with
    any of the three it gives no 403 response at all. *)
Theorem delete_permission_denied_iff request repo_id0 group_id w r :
  get_group svc (service_state w) group_id = true ->
  get_repo svc (service_state w) repo_id0 = Some r ->
  (fst (GroupLibrary_delete svc request group_id repo_id0 w)
   = Some PermissionDenied
   <-> is_group_admin svc (service_state w) group_id (username request)
       = false
       /\ get_repo_owner svc (service_state w) repo_id0
          <> Some (username request)
       /\ is_repo_admin svc (service_state w) (share_permissions w)
            (username request) repo_id0 = false)
  /\ (is_group_admin svc (service_state w) group_id (username request) = true
      \/ get_repo_owner svc (service_state w) repo_id0
         = Some (username request)
      \/ is_repo_admin svc (service_state w) (share_permissions w)
           (username request) repo_id0 = true ->
      forall resp,
        fst (GroupLibrary_delete svc request group_id repo_id0 w) = Some resp ->
        status_code resp <> HTTP_403_FORBIDDEN).
Proof.
  intros Hg Hr. rewrite delete_found, (delete_view_run _ _ _ _ r Hr) by done.
  cbn zeta.
  destruct (is_group_admin _ _ _ _) eqn:Ha;
    [|case_bool_decide as Ho;
      [|destruct (is_repo_admin _ _ _ _ _) eqn:Hra]];
    cbn [orb].
  4:{ split; [done|]. intros [?|[?|?]]; done. }
  all: destruct (unbind_group_repo _ _ _ _ _) as [[[]|] s'];
    [destruct (get_repo svc s' repo_id0)|]; cbn [fst].
  all: split; [split; [intros [=]|intros (? & ? & ?); congruence]|].
  all: by intros _ resp [= <-].
Qed.

(** C7: a successful delete emits exactly one permission-audit message:
    event type delete-repo-perm, the acting user, the group id, an origin
    repository id, an origin path and an empty detail.  The origin id is
    that of the repository as re-fetched after unbinding when it has one,
    and the repo id of the binding when it has none (absent or empty); the
    origin path is that of the re-fetched repository when it has one, and
    the root "/" when it has none. *)
Theorem delete_emits_one_audit_msg request repo_id0 group_id w resp w' :
  GroupLibrary_delete svc request group_id repo_id0 w = (Some resp, w') ->
  status_code resp = HTTP_200_OK ->
  exists repo origin_repo_id origin_path new,
    get_repo svc (service_state w') repo_id0 = Some repo
    /\ emitted w' = emitted w ++ new
    /\ List.filter is_audit_msg new
       = [send_perm_audit_msg "delete-repo-perm" (username request) group_id
            origin_repo_id origin_path ""]
    /\ (forall o, Repo.origin_repo_id repo = Some o -> o <> "" ->
         origin_repo_id = o)
    /\ (Repo.origin_repo_id repo = None \/ Repo.origin_repo_id repo = Some "" ->
        origin_repo_id = repo_id0)
    /\ (forall p, Repo.origin_path repo = Some p -> p <> "" ->
         origin_path = p)
    /\ (Repo.origin_path repo = None \/ Repo.origin_path repo = Some "" ->
        origin_path = "/").
Proof.
  intros Hrun Hok.
  destruct (delete_success_inv _ _ _ _ _ _ Hrun Hok)
    as (s' & repo & _ & Hrepo & _ & ->).
  exists repo, (py_or (Repo.origin_repo_id repo) repo_id0),
    (py_or (Repo.origin_path repo) "/").
  eexists. split; [exact Hrepo|]. split; [reflexivity|]. split.
  { unfold unbind_call. by destruct (is_org_group _ _ _). }
  repeat split.
  - intros o -> Ho. by apply py_or_Some.
  - intros [-> | ->]; [apply py_or_None|apply py_or_empty].
  - intros p -> Hp. by apply py_or_Some.
  - intros [-> | ->]; [apply py_or_None|apply py_or_empty].
Qed.

(** C8: a successful delete unbinds first and then deletes the extra
    share permission of the (repo id, group id) pair: afterwards the table
    is the old one without the rows of that pair, so no row references
    the pair. *)
Theorem delete_removes_extra_permission request repo_id0 group_id w resp w' :
  GroupLibrary_delete svc request group_id repo_id0 w = (Some resp, w') ->
  status_code resp = HTTP_200_OK ->
  (exists e a,
     is_unbind_call e = true
     /\ emitted w'
        = emitted w ++ [e; delete_share_permission_call repo_id0 group_id; a])
  /\ share_permissions w'
     = ExtraGroupsSharePermission.delete_share_permission repo_id0 group_id
         (share_permissions w)
  /\ Forall
       (fun row =>
          ~ (ExtraGroupsSharePermission.repo_id row = repo_id0
             /\ ExtraGroupsSharePermission.group_id row = group_id))
       (share_permissions w').
Proof.
  intros Hrun Hok.
  destruct (delete_success_inv _ _ _ _ _ _ Hrun Hok)
    as (s' & repo & _ & _ & _ & ->).
  cbn [share_permissions emitted]. split; [|split; [done|]].
  - do 2 eexists. split; [|reflexivity].
    unfold unbind_call. by destruct (is_org_group _ _ _).
  - apply Forall_forall. intros row Hrow [Hrepo Hgroup].
    unfold ExtraGroupsSharePermission.delete_share_permission in Hrow.
    apply list_elem_of_filter in Hrow as [Hkeep _].
    unfold ExtraGroupsSharePermission.references in Hkeep.
    rewrite Hrepo, Hgroup, String.eqb_refl, Z.eqb_refl in Hkeep. done.
Qed.

(** C9: when the repository no longer resolves after unbinding, the
    delete operation gives no response at all, neither an error response
    nor the acknowledgment: it stops with an unhandled fault, after the
    unbinding and the extra permission deletion and before any audit
    message. *)
Theorem delete_refetch_absent_faults request repo_id0 group_id w r s' :
  get_group svc (service_state w) group_id = true ->
  get_repo svc (service_state w) repo_id0 = Some r ->
  is_group_admin svc (service_state w) group_id (username request)
  || bool_decide (get_repo_owner svc (service_state w) repo_id0
                  = Some (username request))
  || is_repo_admin svc (service_state w) (share_permissions w)
       (username request) repo_id0 = true ->
  unbind_group_repo svc (service_state w) request repo_id0 group_id
  = (Some tt, s') ->
  get_repo svc s' repo_id0 = None ->
  GroupLibrary_delete svc request group_id repo_id0 w
  = (None,
     mk_world s'
       (ExtraGroupsSharePermission.delete_share_permission repo_id0 group_id
          (share_permissions w))
       (emitted w
        ++ [unbind_call svc (service_state w) request repo_id0 group_id;
            delete_share_permission_call repo_id0 group_id])).
Proof.
  intros Hg Hr Hauth Hunbind Hgone.
  rewrite delete_found, (delete_view_run _ _ _ _ r Hr) by done.
  cbn zeta. rewrite Hauth, Hunbind, Hgone.
  by rewrite <- (assoc_L (++)).
Qed.

(** C10: outside organisation groups, an authorised delete calls the
    unshare with the acting user as its owner argument, whoever the
    recorded owner of the repository is: the service is left in the state
    that unset_group_repo(repo_id, group_id, acting user) gives, the call
    is logged with these arguments, and no other unbinding call is made. *)
Theorem delete_unshares_as_acting_user request repo_id0 group_id w r :
  get_group svc (service_state w) group_id = true ->
  get_repo svc (service_state w) repo_id0 = Some r ->
  is_group_admin svc (service_state w) group_id (username request)
  || bool_decide (get_repo_owner svc (service_state w) repo_id0
                  = Some (username request))
  || is_repo_admin svc (service_state w) (share_permissions w)
       (username request) repo_id0 = true ->
  is_org_group svc (service_state w) group_id = false ->
  service_state (snd (GroupLibrary_delete svc request group_id repo_id0 w))
  = snd (unset_group_repo svc repo_id0 group_id (username request)
           (service_state w))
  /\ exists rest,
       emitted (snd (GroupLibrary_delete svc request group_id repo_id0 w))
       = emitted w
         ++ unset_group_repo_call repo_id0 group_id (username request) :: rest
       /\ Forall (fun e => is_unbind_call e = false) rest.
Proof.
  intros Hg Hr Hauth Horg.
  rewrite delete_found, (delete_view_run _ _ _ _ r Hr) by done.
  cbn zeta. rewrite Hauth. unfold unbind_call, unbind_group_repo.
  rewrite Horg.
  destruct (unset_group_repo svc _ _ _ _) as [[[]|] s'];
    [destruct (get_repo svc s' repo_id0)|];
    cbn [snd emitted service_state]; rewrite <- ?(assoc_L (++)); cbn [app];
    (split; [reflexivity|]);
    eexists; (split; [reflexivity|]); repeat constructor.
Qed.

(** *** The create operation *)

(** C4: when the repo name check, the encryption gate, the permission
    value check, the can-add-repository capability or the group
    membership fails, the create operation returns an error response and
    the world, with the log of side-effecting calls in it, is the one it
    started from. *)
Theorem create_rejected_without_effects request group_id w :
  repo_name_valid svc request = false
  \/ encryption_allowed svc (service_state w) request = false
  \/ permission_valid request = false
  \/ can_add_repo request = false
  \/ is_group_member svc (service_state w) group_id (username request)
     = false ->
  exists resp,
    GroupLibraries_post svc request group_id w = (Some resp, w)
    /\ is_error resp.
Proof.
  unfold repo_name_valid, encryption_allowed, permission_valid, is_error.
  intros Hfail. run.
  destruct (get_group _ _ _); cbn [negb];
    [|eexists; split; [reflexivity|by compute]].
  destruct (truthy (request_data request !! "repo_name")),
    (is_valid_dirent_name svc _); cbn [negb orb andb] in *;
    try (eexists; split; [reflexivity|by compute]).
  destruct (truthy (request_data request !! "password")),
    (ENABLE_ENCRYPTED_LIBRARY svc _); cbn [negb orb andb] in *;
    try (eexists; split; [reflexivity|by compute]).
  all: destruct (bool_decide (_ ∈ _)); cbn [negb];
    try (eexists; split; [reflexivity|by compute]).
  all: destruct (can_add_repo request); cbn [negb];
    try (eexists; split; [reflexivity|by compute]).
  all: destruct (is_group_member _ _ _ _); cbn [negb];
    try (eexists; split; [reflexivity|by compute]).
  all: exfalso; destruct Hfail as [?|[?|[?|[?|?]]]]; discriminate.
Qed.

(** C5: for an existing group, a create request with a valid repo name
    and a non-empty password gets FeatureDisabled while the encrypted
    library flag is off, whatever the capability, the membership and the
    permission value are; nothing is changed. *)
Theorem create_encrypted_disabled request group_id w name passwd :
  get_group svc (service_state w) group_id = true ->
  request_data request !! "repo_name" = Some name ->
  name <> "" ->
  is_valid_dirent_name svc name = true ->
  request_data request !! "password" = Some passwd ->
  passwd <> "" ->
  ENABLE_ENCRYPTED_LIBRARY svc (service_state w) = false ->
  GroupLibraries_post svc request group_id w = (Some FeatureDisabled, w).
Proof.
  intros Hg Hname Hne Hvalid Hpw Hpwne Hoff. unfold GroupLibraries_post.
  rewrite api_check_group_found by done. run.
  apply String.eqb_neq in Hne, Hpwne.
  rewrite Hname. change (default "" (Some name)) with name.
  cbn [truthy]. rewrite Hne, Hvalid.
  cbn [negb orb]. rewrite Hpw, Hoff. cbn [truthy]. by rewrite Hpwne.
Qed.

End Properties.

(** ** The properties at work on the reference service *)

Section Witnesses.
Import Scenario.

(** bob, a plain member, may not delete alice's library repo-0, while the
    group admin carol gets no 403 for it. *)
Lemma delete_permission_denied_iff_witness :
  fst (GroupLibrary_delete svc (as_user bob) 42 "repo-0" world)
  = Some PermissionDenied
  /\ forall resp,
       fst (GroupLibrary_delete svc (as_user carol) 42 "repo-0" world)
       = Some resp ->
       status_code resp <> HTTP_403_FORBIDDEN.
Proof.
  split.
  - apply (delete_permission_denied_iff svc (as_user bob) "repo-0" 42 world
             notes); [reflexivity..|].
    repeat split; [vm_compute; discriminate].
  - apply (delete_permission_denied_iff svc (as_user carol) "repo-0" 42 world
             notes); [reflexivity..|].
    left. reflexivity.
Defined.

(** mallory is no member of group 42; alice is, and gets its four
    libraries. *)
Lemma list_permission_denied_iff_witness :
  fst (GroupLibraries_get svc (as_user mallory) 42 world)
  = Some PermissionDenied
  /\ exists repos result,
       GroupLibraries_get svc (as_user alice) 42 world
       = (Some (Response_ok (InfoList result)), world)
       /\ repos ≡ₚ Demo.get_repos_by_group initial 42
       /\ Forall2 (projected svc) repos result.
Proof.
  split.
  - apply (list_permission_denied_iff svc (as_user mallory) 42 world);
      reflexivity.
  - apply (proj2 (list_permission_denied_iff svc (as_user alice) 42 world
                    eq_refl) (Demo.get_repos_by_group initial 42));
      reflexivity.
Defined.

(** The first record of that list, in full. *)
Example list_group_42_first :
  exists result,
    GroupLibraries_get svc (as_user alice) 42 world
    = (Some (Response_ok (InfoList result)), world)
    /\ head result
       = Some {| repo_id := "repo-1"; repo_name := "Docs"; mtime := "300";
                 permission := "r"; size := 20; encrypted := false;
                 owner_email := alice; owner_name := alice;
                 owner_contact_name := alice;
                 modifier_email := bob; modifier_name := bob;
                 modifier_contact_email := bob |}.
Proof. eexists. split; vm_compute; reflexivity. Qed.

(** When the listing call raises, alice gets no response. *)
Example list_listing_down :
  GroupLibraries_get listing_down (as_user alice) 42 world = (None, world).
Proof. vm_compute. reflexivity. Qed.

(** The listing of group 42 for alice: the two libraries modified at 200
    keep the order the service listed them in. *)
Example list_group_42 :
  exists result,
    GroupLibraries_get svc (as_user alice) 42 world
    = (Some (Response_ok (InfoList result)), world)
    /\ map (fun info => (repo_id info, mtime info)) result
       = [("repo-1", "300"); ("repo-2", "200"); ("repo-3", "200");
          ("repo-0", "100")].
Proof. eexists. split; vm_compute; reflexivity. Qed.

Lemma list_sorted_by_mtime_desc_witness :
  exists result,
    GroupLibraries_get svc (as_user alice) 42 world
    = (Some (Response_ok (InfoList result)), world)
    /\ exists repos listing,
         listed_repos svc (service_state world) (as_user alice) 42
         = Some listing
         /\ result = map (get_group_repo_info svc) repos
         /\ repos ≡ₚ listing
         /\ forall (i j : nat) x y,
              (i < j)%nat -> repos !! i = Some x -> repos !! j = Some y ->
              GroupRepo.last_modified x >= GroupRepo.last_modified y.
Proof.
  eexists. split; [vm_compute; reflexivity|].
  apply (list_sorted_by_mtime_desc svc (as_user alice) 42 world _ world).
  vm_compute. reflexivity.
Defined.

(** carol deletes the sub-library repo-3 from group 42; it stays shared
    with group 43, and the audit message names its origin. *)
Lemma delete_emits_one_audit_msg_witness :
  exists new,
    emitted (snd (GroupLibrary_delete svc (as_user carol) 42 "repo-3" world))
    = emitted world ++ new
    /\ List.filter is_audit_msg new
       = [send_perm_audit_msg "delete-repo-perm" carol 42 "repo-0" "/a/b" ""].
Proof.
  destruct (delete_emits_one_audit_msg svc (as_user carol) "repo-3" 42 world
              (Response_ok SuccessTrue)
              (snd (GroupLibrary_delete svc (as_user carol) 42 "repo-3" world)))
    as (repo & o & p & new & Hrepo & Hlog & Hmsg & Ho & _ & Hp & _).
  - vm_compute. reflexivity.
  - reflexivity.
  - vm_compute in Hrepo. injection Hrepo as <-.
    rewrite (Ho "repo-0" eq_refl) in Hmsg by discriminate.
    rewrite (Hp "/a/b" eq_refl) in Hmsg by discriminate.
    exists new. split; [exact Hlog|exact Hmsg].
Defined.

(** carol deletes repo-0, which has no origin: the message names repo-0
    itself and the root. *)
Example delete_plain_library_audit :
  emitted (snd (GroupLibrary_delete svc (as_user carol) 42 "repo-0" world))
  = [unset_group_repo_call "repo-0" 42 carol;
     delete_share_permission_call "repo-0" 42;
     send_perm_audit_msg "delete-repo-perm" carol 42 "repo-0" "/" ""].
Proof. vm_compute. reflexivity. Qed.

Example delete_sub_library_audit :
  emitted (snd (GroupLibrary_delete svc (as_user carol) 42 "repo-3" world))
  = [unset_group_repo_call "repo-3" 42 carol;
     delete_share_permission_call "repo-3" 42;
     send_perm_audit_msg "delete-repo-perm" carol 42 "repo-0" "/a/b" ""].
Proof. vm_compute. reflexivity. Qed.

(** dave, admin of the organisation group 43, deletes repo-3 from it. *)
Lemma delete_removes_extra_permission_witness :
  (exists e a,
     is_unbind_call e = true
     /\ emitted (snd (GroupLibrary_delete svc (as_user dave) 43 "repo-3"
                        world))
        = emitted world ++ [e; delete_share_permission_call "repo-3" 43; a])
  /\ share_permissions
       (snd (GroupLibrary_delete svc (as_user dave) 43 "repo-3" world))
     = ExtraGroupsSharePermission.delete_share_permission "repo-3" 43
         (share_permissions world)
  /\ Forall
       (fun row =>
          ~ (ExtraGroupsSharePermission.repo_id row = "repo-3"
             /\ ExtraGroupsSharePermission.group_id row = 43))
       (share_permissions
          (snd (GroupLibrary_delete svc (as_user dave) 43 "repo-3" world))).
Proof.
  apply (delete_removes_extra_permission svc (as_user dave) "repo-3" 43 world
           (Response_ok SuccessTrue)).
  - vm_compute. reflexivity.
  - reflexivity.
Defined.

Example delete_keeps_other_rows :
  map (fun row => (ExtraGroupsSharePermission.repo_id row,
                   ExtraGroupsSharePermission.group_id row))
    (share_permissions
       (snd (GroupLibrary_delete svc (as_user dave) 43 "repo-3" world)))
  = [("repo-1", 42); ("repo-0", 42); ("repo-2", 42); ("repo-3", 42)].
Proof. vm_compute. reflexivity. Qed.

(** carol deletes the sub-library repo-2, shared with group 42 only: the
    service drops the sub-library with its last binding, and the second
    fetch finds nothing. *)
Lemma delete_refetch_absent_faults_witness :
  get_repo svc
    (snd (unbind_group_repo svc initial (as_user carol) "repo-2" 42))
    "repo-2" = None
  /\ fst (GroupLibrary_delete svc (as_user carol) 42 "repo-2" world) = None
  /\ emitted (snd (GroupLibrary_delete svc (as_user carol) 42 "repo-2" world))
     = [unset_group_repo_call "repo-2" 42 carol;
        delete_share_permission_call "repo-2" 42].
Proof.
  pose proof
    (delete_refetch_absent_faults svc (as_user carol) "repo-2" 42 world sub
       (snd (unbind_group_repo svc initial (as_user carol) "repo-2" 42))
       eq_refl eq_refl eq_refl eq_refl eq_refl) as Hfault.
  split; [reflexivity|]. rewrite Hfault. split; reflexivity.
Defined.

(** carol is group admin and not the owner of repo-0, which is alice's. *)
Lemma delete_unshares_as_acting_user_witness :
  get_repo_owner svc initial "repo-0" = Some alice
  /\ service_state
       (snd (GroupLibrary_delete svc (as_user carol) 42 "repo-0" world))
     = snd (unset_group_repo svc "repo-0" 42 carol initial)
  /\ exists rest,
       emitted (snd (GroupLibrary_delete svc (as_user carol) 42 "repo-0" world))
       = emitted world ++ unset_group_repo_call "repo-0" 42 carol :: rest
       /\ Forall (fun e => is_unbind_call e = false) rest.
Proof.
  split; [reflexivity|].
  apply (delete_unshares_as_acting_user svc (as_user carol) "repo-0" 42 world
           notes); reflexivity.
Defined.

(** mallory's request fails the gate, the permission check, the
    capability and the membership. *)
Lemma create_rejected_without_effects_witness :
  exists resp,
    GroupLibraries_post svc create_encrypted 42 world = (Some resp, world)
    /\ is_error resp.
Proof.
  apply (create_rejected_without_effects svc create_encrypted 42 world).
  right. left. reflexivity.
Defined.

Lemma create_encrypted_disabled_witness :
  GroupLibraries_post svc create_encrypted 42 world
  = (Some FeatureDisabled, world).
Proof.
  apply (create_encrypted_disabled svc create_encrypted 42 world "Secret"
           "pw"); [reflexivity|reflexivity|discriminate|reflexivity
                  |reflexivity|discriminate|reflexivity].
Defined.


Example create_notes_response :
  exists info,
    fst (GroupLibraries_post svc create_notes 42 world)
    = Some (Response_ok (Info info))
    /\ (owner_email info, modifier_email info, permission info,
        encrypted info)
       = (alice, alice, "rw", false).
Proof. eexists. split; vm_compute; reflexivity. Qed.

End Witnesses.

(** ** Further properties of the handlers *)

Section MoreProperties.
Context {St : Type} (svc : Service St).
Implicit Types (w : World St) (request : Request) (group_id : Z).

(** The create view, computed: the five checks in their order, then the
    creation, the binding, the signal and the second fetch. *)
Lemma post_view_run request group_id w :
  GroupLibraries_post_view svc request group_id w
  = let s := service_state w in
    if negb (repo_name_valid svc request) then
      (Some (api_error HTTP_400_BAD_REQUEST "repo_name invalid."), w)
    else if negb (encryption_allowed svc s request) then
      (Some FeatureDisabled, w)
    else if negb (permission_valid request) then
      (Some (api_error HTTP_400_BAD_REQUEST "permission invalid."), w)
    else if negb (can_add_repo request) then (Some PermissionDenied, w)
    else if negb (is_group_member svc s group_id (username request)) then
      (Some PermissionDenied, w)
    else
      let c := creation_call request in
      match creation svc request s with
      | (None, s1) =>
          (None, mk_world s1 (share_permissions w) (emitted w ++ [c]))
      | (Some new_id, s1) =>
          let b := binding_call request group_id new_id in
          match binding svc request group_id new_id s1 with
          | (None, s2) =>
              (None, mk_world s2 (share_permissions w) (emitted w ++ [c; b]))
          | (Some _, s2) =>
              let w2 :=
                mk_world s2 (share_permissions w)
                  (emitted w ++ [c; b; created_signal request new_id])
              in
              match get_repo svc s2 new_id with
              | None => (None, w2)
              | Some repo =>
                  (Some (Response_ok (Info (created_info svc request repo))),
                   w2)
              end
          end
      end.
Proof.
  run. unfold repo_name_valid, encryption_allowed, permission_valid.
  cbn zeta.
  destruct (truthy (request_data request !! "repo_name")),
    (is_valid_dirent_name svc _); cbn [negb orb andb]; try done.
  destruct (truthy (request_data request !! "password")),
    (ENABLE_ENCRYPTED_LIBRARY svc _); cbn [negb orb andb]; try done.
  all: destruct (bool_decide (_ ∈ _)); cbn [negb]; try done.
  all: destruct (can_add_repo request); cbn [negb]; try done.
  all: destruct (is_group_member _ _ _ _); cbn [negb]; try done.
  all: unfold creation, creation_call, binding, binding_call, created_signal,
    created_info, requested_name, requested_password, requested_permission,
    requested_template.
  all: destruct (org_context request) as [org_id|]; cbn beta iota.
  all: match goal with
       | |- context [create_org_repo svc ?a ?b ?c ?d ?e ?s] =>
           destruct (create_org_repo svc a b c d e s) as [[new_id|] s1]
       | |- context [create_repo svc ?a ?b ?c ?d ?s] =>
           destruct (create_repo svc a b c d s) as [[new_id|] s1]
       end;
    cbn [service_state share_permissions emitted]; try done.
  all: match goal with
       | |- context [add_org_group_repo svc ?a ?b ?c ?d ?e ?s] =>
           destruct (add_org_group_repo svc a b c d e s) as [[[]|] s2]
       | |- context [set_group_repo svc ?a ?b ?c ?d ?s] =>
           destruct (set_group_repo svc a b c d s) as [[[]|] s2]
       end;
    cbn [service_state share_permissions emitted];
    rewrite <- ?(assoc_L (++)); cbn [app]; try done.
  all: by destruct (get_repo svc s2 new_id).
Qed.

Lemma post_found request group_id w :
  get_group svc (service_state w) group_id = true ->
  GroupLibraries_post svc request group_id w
  = GroupLibraries_post_view svc request group_id w.
Proof.
  intros Hg. unfold GroupLibraries_post. by rewrite api_check_group_found.
Qed.

(** The create view, once the checks are passed. *)
Lemma post_view_checked request group_id w :
  create_checks svc (service_state w) request group_id = true ->
  GroupLibraries_post_view svc request group_id w
  = let c := creation_call request in
    match creation svc request (service_state w) with
    | (None, s1) =>
        (None, mk_world s1 (share_permissions w) (emitted w ++ [c]))
    | (Some new_id, s1) =>
        let b := binding_call request group_id new_id in
        match binding svc request group_id new_id s1 with
        | (None, s2) =>
            (None, mk_world s2 (share_permissions w) (emitted w ++ [c; b]))
        | (Some _, s2) =>
            let w2 :=
              mk_world s2 (share_permissions w)
                (emitted w ++ [c; b; created_signal request new_id])
            in
            match get_repo svc s2 new_id with
            | None => (None, w2)
            | Some repo =>
                (Some (Response_ok (Info (created_info svc request repo))), w2)
            end
        end
    end.
Proof.
  unfold create_checks. rewrite !andb_true_iff.
  intros ((((Hn & He) & Hp) & Hc) & Hm).
  rewrite post_view_run. cbn zeta. by rewrite Hn, He, Hp, Hc, Hm.
Qed.

(** A create that answers with status 200 passed every check and made its
    three calls. *)
Lemma post_success_inv request group_id w resp w' :
  GroupLibraries_post svc request group_id w = (Some resp, w') ->
  status_code resp = HTTP_200_OK ->
  create_checks svc (service_state w) request group_id = true
  /\ exists new_id s1 repo,
       creation svc request (service_state w) = (Some new_id, s1)
       /\ binding svc request group_id new_id s1
          = (Some tt, service_state w')
       /\ get_repo svc (service_state w') new_id = Some repo
       /\ resp = Response_ok (Info (created_info svc request repo))
       /\ share_permissions w' = share_permissions w
       /\ emitted w'
          = emitted w
            ++ [creation_call request; binding_call request group_id new_id;
                created_signal request new_id].
Proof.
  intros Hrun Hok. unfold GroupLibraries_post in Hrun.
  destruct (get_group svc (service_state w) group_id) eqn:Hg.
  2:{ rewrite api_check_group_missing in Hrun by done.
      injection Hrun as <- <-. done. }
  rewrite api_check_group_found, post_view_run in Hrun by done.
  cbn zeta in Hrun. unfold create_checks.
  destruct (repo_name_valid svc request); cbn [negb] in Hrun;
    [|injection Hrun as <- <-; done].
  destruct (encryption_allowed svc _ request); cbn [negb] in Hrun;
    [|injection Hrun as <- <-; done].
  destruct (permission_valid request); cbn [negb] in Hrun;
    [|injection Hrun as <- <-; done].
  destruct (can_add_repo request); cbn [negb] in Hrun;
    [|injection Hrun as <- <-; done].
  destruct (is_group_member _ _ _ _); cbn [negb] in Hrun;
    [|injection Hrun as <- <-; done].
  split; [done|].
  destruct (creation svc request _) as [[new_id|] s1]; [|done].
  destruct (binding svc request group_id new_id s1) as [[[]|] s2] eqn:Hb;
    [|done].
  destruct (get_repo svc s2 new_id) as [repo|] eqn:Hrepo; [|done].
  injection Hrun as <- <-. by exists new_id, s1, repo.
Qed.

(** *** The list operation *)

(** The list operation never changes the world, whether it answers or
    ends with the fault of a listing call that raised: it makes no
    side-effecting call.  Any response it gives has status 200, 403 or
    404. *)
Theorem list_changes_nothing request group_id w :
  snd (GroupLibraries_get svc request group_id w) = w
  /\ forall resp,
       fst (GroupLibraries_get svc request group_id w) = Some resp ->
       status_code resp = HTTP_200_OK
       \/ status_code resp = HTTP_403_FORBIDDEN
       \/ status_code resp = HTTP_404_NOT_FOUND.
Proof.
  unfold GroupLibraries_get.
  destruct (get_group svc (service_state w) group_id) eqn:Hg.
  - rewrite api_check_group_found, get_view_run by done.
    destruct (is_group_member _ _ _ _);
      [destruct (listed_repos _ _ _ _)|];
      (split; [done|]); intros resp [= <-]; auto.
  - rewrite api_check_group_missing by done.
    split; [done|]. intros resp [= <-]. auto.
Qed.

(** *** The create operation *)

(** A missing, empty or invalid repo name is answered with 400
    "repo_name invalid." before anything else is looked at: the password,
    the permission value, the capability and the membership play no part. *)
Theorem create_invalid_name request group_id w :
  get_group svc (service_state w) group_id = true ->
  truthy (request_data request !! "repo_name") = false
  \/ is_valid_dirent_name svc (requested_name request) = false ->
  GroupLibraries_post svc request group_id w
  = (Some (api_error HTTP_400_BAD_REQUEST "repo_name invalid."), w).
Proof.
  intros Hg Hname. rewrite post_found, post_view_run by done. cbn zeta.
  replace (repo_name_valid svc request) with false; [done|].
  unfold repo_name_valid, requested_name in *.
  destruct Hname as [-> | ->]; [done|]. by rewrite andb_false_r.
Qed.

(** With a valid name and the encryption gate passed, a permission value
    other than "r" and "rw" is answered with 400 "permission invalid.",
    also for a user without the capability or outside the group. *)
Theorem create_invalid_permission request group_id w :
  get_group svc (service_state w) group_id = true ->
  repo_name_valid svc request = true ->
  encryption_allowed svc (service_state w) request = true ->
  requested_permission request <> "r" ->
  requested_permission request <> "rw" ->
  GroupLibraries_post svc request group_id w
  = (Some (api_error HTTP_400_BAD_REQUEST "permission invalid."), w).
Proof.
  intros Hg Hn He Hr Hrw. rewrite post_found, post_view_run by done.
  cbn zeta. rewrite Hn, He. cbn [negb].
  replace (permission_valid request) with false; [done|].
  symmetry. apply bool_decide_eq_false.
  unfold requested_permission in *.
  rewrite !elem_of_cons, elem_of_nil. tauto.
Qed.

(** Outside an organisation, a successful create has made exactly three
    calls, in this order: create_repo with the name, an empty description,
    the acting user and the password as sent; set_group_repo for the id
    that create_repo returned, with the group, the acting user and the
    permission asked for ("rw" when none is), applied to the state that
    create_repo left and leaving the final state; and the repo_created
    signal with org id -1.  The response has status 200 and carries that
    permission; the extra permission table is untouched. *)
Theorem create_success_calls request group_id w resp w' :
  org_context request = None ->
  GroupLibraries_post svc request group_id w = (Some resp, w') ->
  status_code resp = HTTP_200_OK ->
  exists new_id s1 info,
    create_repo svc (requested_name request) "" (username request)
      (request_data request !! "password") (service_state w)
    = (Some new_id, s1)
    /\ set_group_repo svc new_id group_id (username request)
         (requested_permission request) s1
       = (Some tt, service_state w')
    /\ emitted w'
       = emitted w
         ++ [create_repo_call (requested_name request) "" (username request)
               (request_data request !! "password");
             set_group_repo_call new_id group_id (username request)
               (requested_permission request);
             repo_created_send (-1) (username request) new_id
               (requested_name request) (requested_template request)]
    /\ resp = Response_ok (Info info)
    /\ permission info = requested_permission request
    /\ (requested_permission request = "r"
        \/ requested_permission request = "rw")
    /\ share_permissions w' = share_permissions w.
Proof.
  intros Horg Hrun Hok.
  destruct (post_success_inv _ _ _ _ _ Hrun Hok)
    as (Hchecks & new_id & s1 & repo & Hc & Hb & _ & -> & Hrows & Hlog).
  unfold creation, creation_call, binding, binding_call, created_signal,
    requested_password in *.
  rewrite Horg in *. exists new_id, s1. eexists.
  split; [exact Hc|]. split; [exact Hb|]. split; [exact Hlog|].
  split; [done|]. split; [done|]. split; [|done].
  unfold create_checks in Hchecks. rewrite !andb_true_iff in Hchecks.
  destruct Hchecks as ((((_ & _) & Hp) & _) & _).
  apply bool_decide_eq_true in Hp. unfold requested_permission.
  revert Hp. rewrite !elem_of_cons, elem_of_nil. tauto.
Qed.

(** Inside an organisation, a successful create uses the organisation
    calls with the organisation id of the request: create_org_repo, then
    add_org_group_repo for the id it returned, applied to the state that
    create_org_repo left and leaving the final state, then the
    repo_created signal with that organisation id; it makes no global
    create or binding call. *)
Theorem create_success_org_calls request group_id w resp w' org_id :
  org_context request = Some org_id ->
  GroupLibraries_post svc request group_id w = (Some resp, w') ->
  status_code resp = HTTP_200_OK ->
  exists new_id s1,
    create_org_repo svc (requested_name request) "" (username request)
      (request_data request !! "password") org_id (service_state w)
    = (Some new_id, s1)
    /\ add_org_group_repo svc new_id org_id group_id (username request)
         (requested_permission request) s1
       = (Some tt, service_state w')
    /\ emitted w'
       = emitted w
         ++ [create_org_repo_call (requested_name request) ""
               (username request) (request_data request !! "password") org_id;
             add_org_group_repo_call new_id org_id group_id (username request)
               (requested_permission request);
             repo_created_send org_id (username request) new_id
               (requested_name request) (requested_template request)].
Proof.
  intros Horg Hrun Hok.
  destruct (post_success_inv _ _ _ _ _ Hrun Hok)
    as (_ & new_id & s1 & repo & Hc & Hb & _ & _ & _ & Hlog).
  unfold creation, creation_call, binding, binding_call, created_signal,
    requested_password in *.
  rewrite Horg in *. by exists new_id, s1.
Qed.

(** No rollback: when the binding call raises after the repository was
    created, the create operation stops with that fault.  The service keeps
    the state the failed binding left, the created repository is not
    deleted again, and the repo_created signal is not sent. *)
Theorem create_binding_failure request group_id w new_id s1 s2 :
  get_group svc (service_state w) group_id = true ->
  create_checks svc (service_state w) request group_id = true ->
  creation svc request (service_state w) = (Some new_id, s1) ->
  binding svc request group_id new_id s1 = (None, s2) ->
  GroupLibraries_post svc request group_id w
  = (None,
     mk_world s2 (share_permissions w)
       (emitted w
        ++ [creation_call request; binding_call request group_id new_id])).
Proof.
  intros Hg Hchecks Hc Hb. rewrite post_found, post_view_checked by done.
  cbn zeta. by rewrite Hc, Hb.
Qed.

(** When the new repository does not resolve after creation and binding,
    the create operation gives no response: it faults on the absent record
    after the repository was created, bound and signalled. *)
Theorem create_refetch_absent_faults request group_id w new_id s1 s2 :
  get_group svc (service_state w) group_id = true ->
  create_checks svc (service_state w) request group_id = true ->
  creation svc request (service_state w) = (Some new_id, s1) ->
  binding svc request group_id new_id s1 = (Some tt, s2) ->
  get_repo svc s2 new_id = None ->
  GroupLibraries_post svc request group_id w
  = (None,
     mk_world s2 (share_permissions w)
       (emitted w
        ++ [creation_call request; binding_call request group_id new_id;
            created_signal request new_id])).
Proof.
  intros Hg Hchecks Hc Hb Hgone. rewrite post_found, post_view_checked by done.
  cbn zeta. by rewrite Hc, Hb, Hgone.
Qed.

(** An empty password passes the encryption gate even while encrypted
    libraries are disabled, and is handed to create_repo as it is: the
    call is logged with it, and the create goes on from what
    create_repo gives for the empty password, stopping in that state when
    it raises and binding the returned id otherwise. *)
Theorem create_empty_password_not_gated request group_id w :
  get_group svc (service_state w) group_id = true ->
  request_data request !! "password" = Some "" ->
  repo_name_valid svc request = true ->
  permission_valid request = true ->
  can_add_repo request = true ->
  is_group_member svc (service_state w) group_id (username request) = true ->
  org_context request = None ->
  (exists rest,
     emitted (snd (GroupLibraries_post svc request group_id w))
     = emitted w
       ++ create_repo_call (requested_name request) "" (username request)
            (Some "") :: rest)
  /\ (forall s1,
        create_repo svc (requested_name request) "" (username request)
          (Some "") (service_state w) = (None, s1) ->
        service_state (snd (GroupLibraries_post svc request group_id w)) = s1)
  /\ (forall new_id s1,
        create_repo svc (requested_name request) "" (username request)
          (Some "") (service_state w) = (Some new_id, s1) ->
        service_state (snd (GroupLibraries_post svc request group_id w))
        = snd (set_group_repo svc new_id group_id (username request)
                 (requested_permission request) s1)).
Proof.
  intros Hg Hpw Hn Hp Hc Hm Horg.
  assert (create_checks svc (service_state w) request group_id = true)
    as Hchecks.
  { unfold create_checks, encryption_allowed.
    by rewrite Hn, Hpw, Hp, Hc, Hm. }
  rewrite post_found, post_view_checked by done.
  cbn zeta. unfold creation, creation_call, binding, requested_password.
  rewrite Horg, Hpw.
  destruct (create_repo svc _ _ _ _ _) as [[new_id|] s1].
  - split; [|split; [by intros ? [=]|intros ? ? [= <- <-]]];
      destruct (set_group_repo svc new_id _ _ _ s1) as [[[]|] s2];
      [destruct (get_repo svc s2 new_id)| |destruct (get_repo svc s2 new_id)|];
      cbn [snd emitted service_state]; try reflexivity;
      eexists; reflexivity.
  - cbn [snd emitted service_state].
    split; [eexists; reflexivity|].
    split; [by intros ? [= <-]|by intros ? ? [=]].
Qed.

(** Every error response of the create operation leaves the world as it
    was: nothing is created, bound or signalled before a 4xx answer. *)
Theorem create_error_changes_nothing request group_id w resp w' :
  GroupLibraries_post svc request group_id w = (Some resp, w') ->
  is_error resp ->
  w' = w.
Proof.
  unfold is_error. intros Hrun Herr. unfold GroupLibraries_post in Hrun.
  destruct (get_group svc (service_state w) group_id) eqn:Hg.
  2:{ rewrite api_check_group_missing in Hrun by done. by injection Hrun. }
  rewrite api_check_group_found, post_view_run in Hrun by done.
  cbn zeta in Hrun.
  repeat match type of Hrun with
         | (if ?b then _ else _) = _ =>
             destruct b; [by injection Hrun|]
         end.
  destruct (creation svc request _) as [[new_id|] s1]; [|done].
  destruct (binding svc request group_id new_id s1) as [[[]|] s2]; [|done].
  destruct (get_repo svc s2 new_id); [|done].
  injection Hrun as <- <-. cbn in Herr. unfold HTTP_200_OK in Herr. lia.
Qed.

(** *** The delete operation *)

(** A repository that does not resolve is answered with 404 naming the
    repo id, before any authorisation: also a user who could not delete
    anything learns that the repository does not exist. *)
Theorem delete_repo_not_found request group_id repo_id0 w :
  get_group svc (service_state w) group_id = true ->
  get_repo svc (service_state w) repo_id0 = None ->
  GroupLibrary_delete svc request group_id repo_id0 w
  = (Some (api_error HTTP_404_NOT_FOUND
             ("Library " +:+ repo_id0 +:+ " not found.")), w).
Proof.
  intros Hg Hr. rewrite delete_found by done. run. by rewrite Hr.
Qed.

(** For an organisation group, an authorised delete unbinds with the
    organisation call, for the organisation id the group resolves to: the
    service is left in the state that del_org_group_repo(repo_id, org_id,
    group_id) gives, the call is logged with these arguments, and the
    global unshare is not called. *)
Theorem delete_org_group_unbinds_by_org request group_id repo_id0 w r :
  get_group svc (service_state w) group_id = true ->
  get_repo svc (service_state w) repo_id0 = Some r ->
  may_delete svc w request group_id repo_id0 = true ->
  is_org_group svc (service_state w) group_id = true ->
  service_state (snd (GroupLibrary_delete svc request group_id repo_id0 w))
  = snd (del_org_group_repo svc repo_id0
           (get_org_id_by_group svc (service_state w) group_id) group_id
           (service_state w))
  /\ exists rest,
       emitted (snd (GroupLibrary_delete svc request group_id repo_id0 w))
       = emitted w
         ++ del_org_group_repo_call repo_id0
              (get_org_id_by_group svc (service_state w) group_id) group_id
            :: rest
       /\ Forall (fun e => is_unbind_call e = false) rest.
Proof.
  unfold may_delete. intros Hg Hr Hauth Horg.
  rewrite delete_found, (delete_view_run _ _ _ _ _ r Hr) by done.
  cbn zeta. rewrite Hauth. unfold unbind_call, unbind_group_repo.
  rewrite Horg.
  destruct (del_org_group_repo svc _ _ _ _) as [[[]|] s'];
    [destruct (get_repo svc s' repo_id0)|];
    cbn [snd emitted service_state]; rewrite <- ?(assoc_L (++)); cbn [app];
    (split; [reflexivity|]);
    eexists; (split; [reflexivity|]); repeat constructor.
Qed.

(** When the unbinding call raises, the delete operation stops there: the
    extra share permission rows are all kept and no audit message is
    sent. *)
Theorem delete_unbind_failure request group_id repo_id0 w r s' :
  get_group svc (service_state w) group_id = true ->
  get_repo svc (service_state w) repo_id0 = Some r ->
  may_delete svc w request group_id repo_id0 = true ->
  unbind_group_repo svc (service_state w) request repo_id0 group_id
  = (None, s') ->
  GroupLibrary_delete svc request group_id repo_id0 w
  = (None,
     mk_world s' (share_permissions w)
       (emitted w
        ++ [unbind_call svc (service_state w) request repo_id0 group_id])).
Proof.
  unfold may_delete. intros Hg Hr Hauth Hunbind.
  rewrite delete_found, (delete_view_run _ _ _ _ _ r Hr) by done.
  cbn zeta. by rewrite Hauth, Hunbind.
Qed.

(** Every error response of the delete operation leaves the world as it
    was: no unbinding, no row deleted, no audit message before a 4xx
    answer. *)
Theorem delete_error_changes_nothing request group_id repo_id0 w resp w' :
  GroupLibrary_delete svc request group_id repo_id0 w = (Some resp, w') ->
  is_error resp ->
  w' = w.
Proof.
  unfold is_error. intros Hrun Herr. unfold GroupLibrary_delete in Hrun.
  destruct (get_group svc (service_state w) group_id) eqn:Hg.
  2:{ rewrite api_check_group_missing in Hrun by done. by injection Hrun. }
  rewrite api_check_group_found in Hrun by done. cbn beta in Hrun.
  destruct (get_repo svc (service_state w) repo_id0) as [r|] eqn:Hr.
  2:{ revert Hrun. run. rewrite Hr. by intros [= <- <-]. }
  rewrite (delete_view_run _ _ _ _ _ r Hr) in Hrun. cbn zeta in Hrun.
  destruct (_ || _ || _); [|by injection Hrun].
  destruct (unbind_group_repo _ _ _ _ _) as [[[]|] s']; [|done].
  destruct (get_repo svc s' repo_id0); [|done].
  injection Hrun as <- <-. cbn in Herr. unfold HTTP_200_OK in Herr. lia.
Qed.

(** The delete operation changes the world only for an authorised user of
    an existing group and repository. *)
Theorem delete_changes_only_when_authorised request group_id repo_id0 w :
  snd (GroupLibrary_delete svc request group_id repo_id0 w) <> w ->
  get_group svc (service_state w) group_id = true
  /\ is_Some (get_repo svc (service_state w) repo_id0)
  /\ may_delete svc w request group_id repo_id0 = true.
Proof.
  intros Hchanged. unfold GroupLibrary_delete in Hchanged.
  destruct (get_group svc (service_state w) group_id) eqn:Hg.
  2:{ by rewrite api_check_group_missing in Hchanged. }
  rewrite api_check_group_found in Hchanged by done. cbn beta in Hchanged.
  destruct (get_repo svc (service_state w) repo_id0) as [r|] eqn:Hr.
  2:{ exfalso. apply Hchanged. run. by rewrite Hr. }
  rewrite (delete_view_run _ _ _ _ _ r Hr) in Hchanged. cbn zeta in Hchanged.
  unfold may_delete. destruct (_ || _ || _); [eauto|done].
Qed.

(** The answers of the create operation: the group not-found response, one
    of the two 400 responses, one of the two 403 responses, or a record
    with status 200; never another status. *)
Theorem create_responses request group_id w resp w' :
  GroupLibraries_post svc request group_id w = (Some resp, w') ->
  is_NotFound resp
  \/ resp = api_error HTTP_400_BAD_REQUEST "repo_name invalid."
  \/ resp = FeatureDisabled
  \/ resp = api_error HTTP_400_BAD_REQUEST "permission invalid."
  \/ resp = PermissionDenied
  \/ exists info, resp = Response_ok (Info info).
Proof.
  intros Hrun. unfold GroupLibraries_post in Hrun.
  destruct (get_group svc (service_state w) group_id) eqn:Hg.
  2:{ rewrite api_check_group_missing in Hrun by done.
      injection Hrun as <- <-. by left. }
  rewrite api_check_group_found, post_view_run in Hrun by done.
  cbn zeta in Hrun.
  repeat match type of Hrun with
         | (if ?b then _ else _) = _ =>
             destruct b; [injection Hrun as <- <-; tauto|]
         end.
  destruct (creation svc request _) as [[new_id|] s1]; [|done].
  destruct (binding svc request group_id new_id s1) as [[[]|] s2]; [|done].
  destruct (get_repo svc s2 new_id); [|done].
  injection Hrun as <- <-. eauto 10.
Qed.

(** The answers of the delete operation: a not-found response for the
    group or the repository, PermissionDenied, or the acknowledgment with
    status 200; never a 400. *)
Theorem delete_responses request group_id repo_id0 w resp w' :
  GroupLibrary_delete svc request group_id repo_id0 w = (Some resp, w') ->
  is_NotFound resp
  \/ resp = PermissionDenied
  \/ resp = Response_ok SuccessTrue.
Proof.
  intros Hrun. unfold GroupLibrary_delete in Hrun.
  destruct (get_group svc (service_state w) group_id) eqn:Hg.
  2:{ rewrite api_check_group_missing in Hrun by done.
      injection Hrun as <- <-. by left. }
  rewrite api_check_group_found in Hrun by done. cbn beta in Hrun.
  destruct (get_repo svc (service_state w) repo_id0) as [r|] eqn:Hr.
  2:{ revert Hrun. run. rewrite Hr. intros [= <- <-]. by left. }
  rewrite (delete_view_run _ _ _ _ _ r Hr) in Hrun. cbn zeta in Hrun.
  destruct (_ || _ || _); [|injection Hrun as <- <-; tauto].
  destruct (unbind_group_repo _ _ _ _ _) as [[[]|] s']; [|done].
  destruct (get_repo svc s' repo_id0); [|done].
  injection Hrun as <- <-. tauto.
Qed.
End MoreProperties.

(** ** The further properties at work on the reference service *)

Section MoreWitnesses.
Import Scenario.

(** The two libraries of group 42 modified at 200, as listed. *)
Lemma list_ties_keep_order_witness :
  exists result repos,
    GroupLibraries_get svc (as_user alice) 42 world
    = (Some (Response_ok (InfoList result)), world)
    /\ result = map (get_group_repo_info svc) repos
    /\ map GroupRepo.repo_id
         (filter (fun r => GroupRepo.last_modified r = 200) repos)
       = ["repo-2"; "repo-3"].
Proof.
  eexists.
  destruct (list_ties_keep_order svc (as_user alice) 42 world _ world 200
              eq_refl) as (repos & listing & Hlisting & Hresult & Hties).
  exists repos. split; [reflexivity|]. split; [exact Hresult|].
  rewrite Hties. injection Hlisting as <-. reflexivity.
Defined.

(** The world after a listing that raised, and the status alice gets from
    the working service. *)
Lemma list_changes_nothing_witness :
  snd (GroupLibraries_get listing_down (as_user alice) 42 world) = world
  /\ forall resp,
       fst (GroupLibraries_get svc (as_user alice) 42 world) = Some resp ->
       status_code resp = HTTP_200_OK
       \/ status_code resp = HTTP_403_FORBIDDEN
       \/ status_code resp = HTTP_404_NOT_FOUND.
Proof.
  split.
  - apply (list_changes_nothing listing_down (as_user alice) 42 world).
  - apply (list_changes_nothing svc (as_user alice) 42 world).
Defined.

(** No name, and a password and a permission that would be rejected too. *)
Lemma create_invalid_name_witness :
  GroupLibraries_post svc create_nameless 42 world
  = (Some (api_error HTTP_400_BAD_REQUEST "repo_name invalid."), world).
Proof.
  apply (create_invalid_name svc create_nameless 42 world); [reflexivity|].
  left. reflexivity.
Defined.

Lemma create_invalid_permission_witness :
  can_add_repo create_admin = false
  /\ GroupLibraries_post svc create_admin 42 world
     = (Some (api_error HTTP_400_BAD_REQUEST "permission invalid."), world).
Proof.
  split; [reflexivity|].
  apply (create_invalid_permission svc create_admin 42 world);
    [reflexivity|reflexivity|reflexivity|discriminate|discriminate].
Defined.

(** alice creates "Plain" without naming a permission: the new library is
    bound to group 42 in the final state. *)
Lemma create_success_calls_witness :
  exists info,
    fst (GroupLibraries_post svc create_plain 42 world)
    = Some (Response_ok (Info info))
    /\ permission info = "rw"
    /\ emitted (snd (GroupLibraries_post svc create_plain 42 world))
       = [create_repo_call "Plain" "" alice None;
          set_group_repo_call "repo-4" 42 alice "rw";
          repo_created_send (-1) alice "repo-4" "Plain" ""]
    /\ service_state (snd (GroupLibraries_post svc create_plain 42 world))
       = snd (set_group_repo svc "repo-4" 42 alice "rw"
                (snd (create_repo svc "Plain" "" alice None initial))).
Proof.
  destruct (create_success_calls svc create_plain 42 world
              (default PermissionDenied
                 (fst (GroupLibraries_post svc create_plain 42 world)))
              (snd (GroupLibraries_post svc create_plain 42 world)))
    as (new_id & s1 & info & Hc & Hb & Hlog & Hresp & Hperm & _ & _).
  - reflexivity.
  - vm_compute. reflexivity.
  - vm_compute. reflexivity.
  - change (create_repo svc "Plain" "" alice None initial = (Some new_id, s1))
      in Hc.
    rewrite Hc. cbn [snd].
    assert (new_id = "repo-4") as -> by (vm_compute in Hc; congruence).
    exists info. split; [rewrite <- Hresp; vm_compute; reflexivity|].
    split; [exact Hperm|]. split; [exact Hlog|].
    change (set_group_repo svc "repo-4" 42 alice "rw" s1
            = (Some tt,
               service_state
                 (snd (GroupLibraries_post svc create_plain 42 world))))
      in Hb.
    by rewrite Hb.
Defined.

(** dave creates "Org" from the wiki template in organisation 7. *)
Lemma create_success_org_calls_witness :
  emitted (snd (GroupLibraries_post svc create_in_org 43 world))
  = [create_org_repo_call "Org" "" dave None 7;
     add_org_group_repo_call "repo-4" 7 43 dave "rw";
     repo_created_send 7 dave "repo-4" "Org" "wiki"]
  /\ service_state (snd (GroupLibraries_post svc create_in_org 43 world))
     = snd (add_org_group_repo svc "repo-4" 7 43 dave "rw"
              (snd (create_org_repo svc "Org" "" dave None 7 initial))).
Proof.
  destruct (create_success_org_calls svc create_in_org 43 world
              (default PermissionDenied
                 (fst (GroupLibraries_post svc create_in_org 43 world)))
              (snd (GroupLibraries_post svc create_in_org 43 world)) 7)
    as (new_id & s1 & Hc & Hb & Hlog).
  - reflexivity.
  - vm_compute. reflexivity.
  - vm_compute. reflexivity.
  - change (create_org_repo svc "Org" "" dave None 7 initial
            = (Some new_id, s1)) in Hc.
    rewrite Hc. cbn [snd].
    assert (new_id = "repo-4") as -> by (vm_compute in Hc; congruence).
    split; [exact Hlog|].
    change (add_org_group_repo svc "repo-4" 7 43 dave "rw" s1
            = (Some tt,
               service_state
                 (snd (GroupLibraries_post svc create_in_org 43 world))))
      in Hb.
    by rewrite Hb.
Defined.

(** The binding call is down: the library "Plain" stays behind, nobody is
    told. *)
Lemma create_binding_failure_witness :
  fst (GroupLibraries_post (broken true false false) create_plain 42 world)
  = None
  /\ emitted
       (snd (GroupLibraries_post (broken true false false) create_plain 42
               world))
     = [create_repo_call "Plain" "" alice None;
        set_group_repo_call "repo-4" 42 alice "rw"]
  /\ Repo.name
     <$> get_repo (broken true false false)
           (service_state
              (snd (GroupLibraries_post (broken true false false)
                      create_plain 42 world)))
           "repo-4"
     = Some "Plain".
Proof.
  pose proof
    (create_binding_failure (broken true false false) create_plain 42 world
       "repo-4"
       (snd (creation (broken true false false) create_plain initial))
       (snd (creation (broken true false false) create_plain initial))
       eq_refl eq_refl eq_refl eq_refl) as Hfault.
  rewrite Hfault. split; [reflexivity|]. split; reflexivity.
Defined.

(** The service hands out an id and then cannot find the library. *)
Lemma create_refetch_absent_faults_witness :
  fst (GroupLibraries_post (broken false false true) create_plain 42 world)
  = None
  /\ emitted
       (snd (GroupLibraries_post (broken false false true) create_plain 42
               world))
     = [create_repo_call "Plain" "" alice None;
        set_group_repo_call "repo-4" 42 alice "rw";
        repo_created_send (-1) alice "repo-4" "Plain" ""].
Proof.
  pose proof
    (create_refetch_absent_faults (broken false false true) create_plain 42
       world "repo-4" initial
       (snd (binding (broken false false true) create_plain 42 "repo-4"
               initial))
       eq_refl eq_refl eq_refl eq_refl eq_refl) as Hfault.
  rewrite Hfault. split; reflexivity.
Defined.

(** Encrypted libraries are disabled in the scenario. *)
Lemma create_empty_password_not_gated_witness :
  ENABLE_ENCRYPTED_LIBRARY svc initial = false
  /\ (exists rest,
        emitted (snd (GroupLibraries_post svc create_empty_password 42 world))
        = emitted world
          ++ create_repo_call "Plain" "" alice (Some "") :: rest)
  /\ service_state
       (snd (GroupLibraries_post svc create_empty_password 42 world))
     = snd (set_group_repo svc "repo-4" 42 alice "rw"
              (snd (create_repo svc "Plain" "" alice (Some "") initial))).
Proof.
  split; [reflexivity|].
  destruct (create_empty_password_not_gated svc create_empty_password 42 world)
    as (Hlog & _ & Hstate); [reflexivity..|].
  split; [exact Hlog|].
  apply (Hstate "repo-4"
           (snd (create_repo svc "Plain" "" alice (Some "") initial))).
  reflexivity.
Defined.

Lemma create_error_changes_nothing_witness :
  snd (GroupLibraries_post svc create_encrypted 42 world) = world.
Proof.
  apply (create_error_changes_nothing svc create_encrypted 42 world
           FeatureDisabled).
  - vm_compute. reflexivity.
  - unfold is_error. vm_compute. discriminate.
Defined.

(** mallory, who could delete nothing, asks for a library that is not
    there. *)
Lemma delete_repo_not_found_witness :
  GroupLibrary_delete svc (as_user mallory) 42 "repo-9" world
  = (Some (api_error HTTP_404_NOT_FOUND "Library repo-9 not found."), world).
Proof.
  apply (delete_repo_not_found svc (as_user mallory) 42 "repo-9" world);
    reflexivity.
Defined.

(** dave, admin of group 43 of organisation 7, removes repo-1 from it. *)
Lemma delete_org_group_unbinds_by_org_witness :
  service_state
    (snd (GroupLibrary_delete svc (as_user dave) 43 "repo-1" world))
  = snd (del_org_group_repo svc "repo-1" 7 43 initial)
  /\ exists rest,
       emitted (snd (GroupLibrary_delete svc (as_user dave) 43 "repo-1" world))
       = emitted world ++ del_org_group_repo_call "repo-1" 7 43 :: rest
       /\ Forall (fun e => is_unbind_call e = false) rest.
Proof.
  apply (delete_org_group_unbinds_by_org svc (as_user dave) 43 "repo-1" world
           docs); reflexivity.
Defined.

(** The unbinding call is down. *)
Lemma delete_unbind_failure_witness :
  GroupLibrary_delete (broken false true false) (as_user carol) 42 "repo-0"
    world
  = (None,
     mk_world initial rows [unset_group_repo_call "repo-0" 42 carol]).
Proof.
  apply (delete_unbind_failure (broken false true false) (as_user carol) 42
           "repo-0" world notes initial); reflexivity.
Defined.

(** bob is refused, and nothing has happened. *)
Lemma delete_error_changes_nothing_witness :
  snd (GroupLibrary_delete svc (as_user bob) 42 "repo-0" world) = world.
Proof.
  apply (delete_error_changes_nothing svc (as_user bob) 42 "repo-0" world
           PermissionDenied).
  - vm_compute. reflexivity.
  - unfold is_error. vm_compute. discriminate.
Defined.

(** carol's delete changes the world. *)
Lemma delete_changes_only_when_authorised_witness :
  get_group svc initial 42 = true
  /\ is_Some (get_repo svc initial "repo-0")
  /\ may_delete svc world (as_user carol) 42 "repo-0" = true.
Proof.
  apply (delete_changes_only_when_authorised svc (as_user carol) 42 "repo-0"
           world).
  intros Hsame. apply (f_equal emitted) in Hsame.
  vm_compute in Hsame. discriminate Hsame.
Defined.

Lemma create_responses_witness :
  exists info,
    fst (GroupLibraries_post svc create_plain 42 world)
    = Some (Response_ok (Info info)).
Proof.
  destruct (create_responses svc create_plain 42 world
              (default PermissionDenied
                 (fst (GroupLibraries_post svc create_plain 42 world)))
              (snd (GroupLibraries_post svc create_plain 42 world)))
    as [H|[H|[H|[H|[H|[info H]]]]]];
    [vm_compute; reflexivity|exfalso; vm_compute in H; discriminate H..|].
  exists info. rewrite <- H. vm_compute. reflexivity.
Defined.

Lemma delete_responses_witness :
  fst (GroupLibrary_delete svc (as_user carol) 42 "repo-0" world)
  = Some (Response_ok SuccessTrue).
Proof.
  destruct (delete_responses svc (as_user carol) 42 "repo-0" world
              (default PermissionDenied
                 (fst (GroupLibrary_delete svc (as_user carol) 42 "repo-0"
                         world)))
              (snd (GroupLibrary_delete svc (as_user carol) 42 "repo-0"
                      world)))
    as [H|[H|H]];
    [vm_compute; reflexivity|exfalso; vm_compute in H; discriminate H..|].
  rewrite <- H. vm_compute. reflexivity.
Defined.
End MoreWitnesses.
